(** * Weather-app: the fetch / cache / fallback engine of [app.py]

    A shallow embedding of [src/app.py] and the properties of its engine:
    [slugify], [cache_path_for], [read_cache], [write_cache], [log_request],
    [fetch_weather_from_api] and the [POST /weather] handler [weather].

    Modelling conventions.
    - Text is a [string] whose characters are read as the code points
      U+0000 .. U+00FF; on that range [str.strip], [str.lower] and the UTF-8
      encoding below are exactly Python's.  Text with other code points is
      outside the model: there [str.lower] may change the number of
      characters.
    - Time and durations are whole seconds in [Z]; the clock only moves in
      [time.sleep].  The clock is a float in Python, while a number of a
      JSON document may be an integer of any size: the difference of the
      two is taken exactly, as it is for whole seconds below [2 ** 53], and
      raises [OverflowError] for an integer beyond the range of floats.
    - A JSON document is a [json] value; a Python [dict] is a [gmap] from
      [string] keys; Python's [None] and JSON's [null] are the same value.
    - Effects are threaded through a state-and-exception monad [M] over a
      [World]: the clock, the cache directory and the trace of observable
      events.  What the outside world answers (the upstream provider, the
      file system's permissions) is read from an [Env]. *)

From Stdlib Require Import ZArith List Ascii String Lia.
From stdpp Require Import gmap strings list fin_maps pretty.

Set Warnings "-register-all".
Local Open Scope string_scope.
Local Open Scope Z_scope.

(* ===================================================================== *)
(** ** Python text primitives *)
(* ===================================================================== *)

Module PyStr.

Definition code (c : ascii) : Z := Z.of_N (N_of_ascii c).
Definition chr (z : Z) : ascii := ascii_of_N (Z.to_N z).

(** [str.isspace] on one character of the range U+0000 .. U+00FF. *)
Definition isspace (c : ascii) : bool :=
  let n := code c in
  ((9 <=? n) && (n <=? 13)) || ((28 <=? n) && (n <=? 32))
  || (n =? 133) || (n =? 160).

Fixpoint lstrip_of (sp : ascii -> bool) (s : string) : string :=
  match s with
  | EmptyString => EmptyString
  | String c s' => if sp c then lstrip_of sp s' else s
  end.

Fixpoint rstrip_of (sp : ascii -> bool) (s : string) : string :=
  match s with
  | EmptyString => EmptyString
  | String c s' =>
      match rstrip_of sp s' with
      | EmptyString => if sp c then EmptyString else String c EmptyString
      | r => String c r
      end
  end.

(** [s.strip()] *)
Definition strip (s : string) : string :=
  rstrip_of isspace (lstrip_of isspace s).

Fixpoint map_chars (f : ascii -> ascii) (s : string) : string :=
  match s with
  | EmptyString => EmptyString
  | String c s' => String (f c) (map_chars f s')
  end.

(** [str.lower] on one character: A-Z, and the upper-case letters of
    U+00C0 .. U+00DE (all but the multiplication sign U+00D7). *)
Definition lower_char (c : ascii) : ascii :=
  let n := code c in
  if ((65 <=? n) && (n <=? 90))
     || ((192 <=? n) && (n <=? 222) && negb (n =? 215))
  then chr (n + 32) else c.

(** [s.lower()] *)
Definition lower (s : string) : string := map_chars lower_char s.

(** [s.replace(a, b)] for single characters [a] and [b]. *)
Definition replace_char (a b : ascii) (s : string) : string :=
  map_chars (fun c => if Ascii.eqb c a then b else c) s.

(** [s.encode("utf-8")]: one byte below U+0080, two bytes above. *)
Fixpoint encode_utf8 (s : string) : list Z :=
  match s with
  | EmptyString => []
  | String c s' =>
      let n := code c in
      if n <? 128 then n :: encode_utf8 s'
      else Z.lor 192 (Z.shiftr n 6) :: Z.lor 128 (Z.land n 63) :: encode_utf8 s'
  end.

(** Python truthiness of a [str]: [bool(s)]. *)
Definition truthy (s : string) : bool :=
  match s with EmptyString => false | _ => true end.

(** *** [int(s)] for a [str] argument

    Surrounding white space is dropped, one sign is allowed, then decimal
    digits, with single underscores allowed between digits.  [None] stands
    for the [ValueError] Python raises on anything else.  The white space
    [int] drops is not that of [str.strip]: the separators U+001C .. U+001F
    are refused.  A text of more than 4300 digits (leading zeros counted,
    underscores not) is refused as well: the default of
    [sys.int_max_str_digits]. *)

Definition isspace_int (c : ascii) : bool :=
  let n := code c in
  ((9 <=? n) && (n <=? 13)) || (n =? 32) || (n =? 133) || (n =? 160).

Definition digit (c : ascii) : option Z :=
  let n := code c in
  if (48 <=? n) && (n <=? 57) then Some (n - 48) else None.

Definition is_underscore (c : ascii) : bool := code c =? 95.

(** [digits acc s]: the digits of [s] after a digit has been read. *)
Fixpoint digits (acc : Z) (s : string) : option Z :=
  match s with
  | EmptyString => Some acc
  | String c s' =>
      match digit c with
      | Some d => digits (10 * acc + d) s'
      | None =>
          if is_underscore c then
            match s' with
            | String c' s'' =>
                match digit c' with
                | Some d => digits (10 * acc + d) s''
                | None => None
                end
            | EmptyString => None
            end
          else None
      end
  end.

Fixpoint count_digits (s : string) : Z :=
  match s with
  | EmptyString => 0
  | String c s' =>
      match digit c with
      | Some _ => 1 + count_digits s'
      | None => count_digits s'
      end
  end.

Definition unsigned (s : string) : option Z :=
  if 4300 <? count_digits s then None
  else
    match s with
    | String c s' =>
        match digit c with
        | Some d => digits d s'
        | None => None
        end
    | EmptyString => None
    end.

Definition int (s : string) : option Z :=
  match rstrip_of isspace_int (lstrip_of isspace_int s) with
  | String "-" s' => Z.opp <$> unsigned s'
  | String "+" s' => unsigned s'
  | s' => unsigned s'
  end.

End PyStr.

(* ===================================================================== *)
(** ** [hashlib.md5(...).hexdigest()] *)
(* ===================================================================== *)

Module MD5.

Definition mask32 (x : Z) : Z := x mod 2 ^ 32.
Definition add32 (x y : Z) : Z := mask32 (x + y).
Definition not32 (x : Z) : Z := Z.lxor x 0xffffffff.
Definition rotl32 (x : Z) (n : Z) : Z :=
  mask32 (Z.lor (Z.shiftl x n) (Z.shiftr x (32 - n))).

Definition K : list Z :=
[0xd76aa478; 0xe8c7b756; 0x242070db; 0xc1bdceee;
 0xf57c0faf; 0x4787c62a; 0xa8304613; 0xfd469501;
 0x698098d8; 0x8b44f7af; 0xffff5bb1; 0x895cd7be;
 0x6b901122; 0xfd987193; 0xa679438e; 0x49b40821;
 0xf61e2562; 0xc040b340; 0x265e5a51; 0xe9b6c7aa;
 0xd62f105d; 0x02441453; 0xd8a1e681; 0xe7d3fbc8;
 0x21e1cde6; 0xc33707d6; 0xf4d50d87; 0x455a14ed;
 0xa9e3e905; 0xfcefa3f8; 0x676f02d9; 0x8d2a4c8a;
 0xfffa3942; 0x8771f681; 0x6d9d6122; 0xfde5380c;
 0xa4beea44; 0x4bdecfa9; 0xf6bb4b60; 0xbebfbc70;
 0x289b7ec6; 0xeaa127fa; 0xd4ef3085; 0x04881d05;
 0xd9d4d039; 0xe6db99e5; 0x1fa27cf8; 0xc4ac5665;
 0xf4292244; 0x432aff97; 0xab9423a7; 0xfc93a039;
 0x655b59c3; 0x8f0ccc92; 0xffeff47d; 0x85845dd1;
 0x6fa87e4f; 0xfe2ce6e0; 0xa3014314; 0x4e0811a1;
 0xf7537e82; 0xbd3af235; 0x2ad7d2bb; 0xeb86d391].

Definition shifts : list Z :=
[7; 12; 17; 22; 7; 12; 17; 22; 7; 12; 17; 22; 7; 12; 17; 22;
 5; 9; 14; 20; 5; 9; 14; 20; 5; 9; 14; 20; 5; 9; 14; 20;
 4; 11; 16; 23; 4; 11; 16; 23; 4; 11; 16; 23; 4; 11; 16; 23;
 6; 10; 15; 21; 6; 10; 15; 21; 6; 10; 15; 21; 6; 10; 15; 21].

Definition nthZ (l : list Z) (i : Z) : Z := nth (Z.to_nat i) l 0.

(** The message followed by 0x80, zeros up to 56 mod 64, and the bit
    length as 8 little-endian bytes. *)
Definition le_bytes (n : nat) (x : Z) : list Z :=
  map (fun i => Z.land (Z.shiftr x (8 * Z.of_nat i)) 255) (seq 0 n).

Definition pad (msg : list Z) : list Z :=
  let len := Z.of_nat (length msg) in
  let zeros := Z.to_nat ((55 - len) mod 64) in
  msg ++ [128] ++ repeat 0 zeros ++ le_bytes 8 (8 * len).

Fixpoint words (n : nat) (bytes : list Z) : list Z :=
  match n, bytes with
  | S n', b0 :: b1 :: b2 :: b3 :: rest =>
      (b0 + Z.shiftl b1 8 + Z.shiftl b2 16 + Z.shiftl b3 24) :: words n' rest
  | _, _ => []
  end.

Definition state : Type := Z * Z * Z * Z.

Definition round (m : list Z) (st : state) (i : Z) : state :=
  let '(a, b, c, d) := st in
  let '(f, g) :=
    if i <? 16 then (Z.lor (Z.land b c) (Z.land (not32 b) d), i)
    else if i <? 32 then
      (Z.lor (Z.land d b) (Z.land (not32 d) c), (5 * i + 1) mod 16)
    else if i <? 48 then (Z.lxor (Z.lxor b c) d, (3 * i + 5) mod 16)
    else (Z.lxor c (Z.lor b (not32 d)), (7 * i) mod 16) in
  let f' := add32 (add32 (add32 f a) (nthZ K i)) (nthZ m g) in
  (d, add32 b (rotl32 f' (nthZ shifts i)), b, c).

Definition block (st : state) (m : list Z) : state :=
  let '(a0, b0, c0, d0) := st in
  let '(a, b, c, d) :=
    fold_left (round m) (map Z.of_nat (seq 0 64)) st in
  (add32 a0 a, add32 b0 b, add32 c0 c, add32 d0 d).

Fixpoint blocks (n : nat) (st : state) (bytes : list Z) : state :=
  match n with
  | O => st
  | S n' => blocks n' (block st (words 16 bytes)) (skipn 64 bytes)
  end.

Definition digest (msg : list Z) : list Z :=
  let p := pad msg in
  let '(a, b, c, d) :=
    blocks (Nat.div (length p) 64)
           (0x67452301, 0xefcdab89, 0x98badcfe, 0x10325476) p in
  le_bytes 4 a ++ le_bytes 4 b ++ le_bytes 4 c ++ le_bytes 4 d.

Definition hex_digit (n : Z) : ascii :=
  if n <? 10 then PyStr.chr (48 + n) else PyStr.chr (87 + n).

Fixpoint hex (bytes : list Z) : string :=
  match bytes with
  | [] => EmptyString
  | b :: rest =>
      String (hex_digit (Z.shiftr b 4)) (String (hex_digit (Z.land b 15)) (hex rest))
  end.

Definition hexdigest (msg : list Z) : string := hex (digest msg).

End MD5.

(* ===================================================================== *)
(** ** KeyCodec: [slugify] and [cache_path_for] *)
(* ===================================================================== *)

(** [slugify(text)]: the normalised text, spaces replaced, and its MD5. *)
Definition slugify (text : string) : string :=
  let text := PyStr.lower (PyStr.strip text) in
  let h := MD5.hexdigest (PyStr.encode_utf8 text) in
  PyStr.replace_char " " "_" text ++ "_" ++ h.

(* ===================================================================== *)
(** ** JSON documents and Python values *)
(* ===================================================================== *)

Inductive json :=
  | JNull
  | JBool (b : bool)
  | JNum (z : Z)
  | JStr (s : string)
  | JArr (l : list json)
  | JObj (m : gmap string json).

(** A Python [dict] with [str] keys. *)
Abbreviation dict := (gmap string json).

Module Py.

(** [bool(v)]: what [if v:] tests. *)
Definition truthy (v : json) : bool :=
  match v with
  | JNull => false
  | JBool b => b
  | JNum z => negb (z =? 0)
  | JStr s => PyStr.truthy s
  | JArr l => match l with [] => false | _ => true end
  | JObj m => negb (Nat.eqb (size m) 0)
  end.

(** [d.get(key)] and [d.get(key, default)]. *)
Definition get (d : dict) (key : string) : json := default JNull (d !! key).
Definition get_or (d : dict) (key : string) (dflt : json) : json :=
  default dflt (d !! key).

(** [{"expired": True, **data}]: the items of [data] win. *)
Definition mark_expired (data : dict) : dict :=
  data ∪ {["expired" := JBool true]}.

(** [if cache:] for [cache] either [None] or a [dict]. *)
Definition truthy_cache (cache : option dict) : bool :=
  match cache with
  | None => false
  | Some d => truthy (JObj d)
  end.

End Py.

(** The record [write_cache] stores, and what [read_cache] hands back for it
    once it has expired. *)
Definition entry_doc (ts : Z) (payload : json) : dict :=
  {["timestamp" := JNum ts; "data" := payload]}.

Definition expired_doc (ts : Z) (payload : json) : dict :=
  Py.mark_expired (entry_doc ts payload).

(* ===================================================================== *)
(** ** Exceptions *)
(* ===================================================================== *)

Inductive exn :=
  | RuntimeError (msg : string)
  | ValueError
  | OverflowError
  | TypeError
  | AttributeError
  | OSError
  | JSONDecodeError              (* json.JSONDecodeError, a ValueError *)
  | RequestException (msg : string)
  | RequestsJSONDecodeError.     (* requests' own, raised by resp.json() *)

(** The classes named in the [except] clauses of [app.py]. *)
Inductive exn_class := ExceptionC | ValueErrorC | RequestExceptionC.

Definition isinstance (e : exn) (c : exn_class) : bool :=
  match c, e with
  | ExceptionC, _ => true
  | ValueErrorC, (ValueError | JSONDecodeError | RequestsJSONDecodeError) => true
  | RequestExceptionC, (RequestException _ | RequestsJSONDecodeError) => true
  | _, _ => false
  end.

(* ===================================================================== *)
(** ** The world the program runs in *)
(* ===================================================================== *)

(** A file of the cache directory: one that cannot be opened or read, one
    whose text [json.load] refuses, or one whose text [json.load] parses to
    the given document.  [json.dump] of a document that came out of
    [resp.json()] writes a text that [json.load] parses back to it. *)
Inductive file :=
  | Unreadable
  | Garbage
  | Doc (j : json).

(** [requests.Response], as far as the program looks at it. *)
Record response := {
  status_code : Z;
  retry_after : option string;   (* resp.headers.get("Retry-After") *)
  body : option json             (* resp.json(); None when it raises *)
}.

Inductive http_result :=
  | NetFail (msg : string)       (* requests.get raises RequestException *)
  | Resp (r : response).

Inductive event :=
  | EvSlugify (text : string)
  | EvExists (p : string)
  | EvOpenRead (p : string)
  | EvOpenWrite (p : string)
  | EvGet (url : option string) (params : list (string * option string))
  | EvSleep (secs : Z)
  | EvLogInfo (city : string) (status : Z) (source note : string)
  | EvLogError (msg : string) (e : exn).

Record World := {
  now : Z;                       (* time.time() *)
  fs : gmap string file;         (* the files os.stat finds, by path *)
  requests_made : nat;           (* HTTP requests issued so far *)
  trace : list event             (* what happened, oldest first *)
}.

(** [config.json] and the environment variable [API_KEY]. *)
Record Config := {
  API_URL : option string;
  CACHE_TTL : Z;
  CACHE_DIR : string;
  UNITS : string;
  LANG : string;
  MAX_RETRIES : Z;
  BACKOFF_BASE : Z;
  API_KEY : option string
}.

(** What the outside answers: the [n]-th HTTP request of a run gets
    [upstream n]; [writable p] tells whether writing [p] goes through (a
    write that does not is one that fails when the file is opened: a
    failure after that, which leaves the file truncated, is not modelled);
    [stat_denied p] tells whether looking up a path [p] that is not among
    the files found fails for a reason that lies in the state of the file
    system, as when the cache directory cannot be searched (a file name
    that is too long for any directory is found out from the path alone,
    see [PyPath.name_too_long]);
    [sleep_limit] is the longest sleep the platform accepts, at most
    9223372036 seconds on the platforms Python runs on. *)
Record Env := {
  config : Config;
  upstream : nat -> http_result;
  writable : string -> bool;
  stat_denied : string -> bool;
  sleep_limit : Z
}.

(* ===================================================================== *)
(** ** The state-and-exception monad *)
(* ===================================================================== *)

Inductive outcome (A : Type) :=
  | Ok (a : A)
  | Raise (e : exn).
Arguments Ok {A} a.
Arguments Raise {A} e.

Definition M (A : Type) : Type := World -> outcome A * World.

Definition ret {A} (a : A) : M A := fun w => (Ok a, w).

Definition bind {A B} (c : M A) (k : A -> M B) : M B :=
  fun w =>
    match c w with
    | (Ok a, w') => k a w'
    | (Raise e, w') => (Raise e, w')
    end.

Definition raise {A} (e : exn) : M A := fun w => (Raise e, w).

(** [try: body / except cls as e: handler(e)] *)
Definition try_except {A} (body : M A) (cls : exn_class) (handler : exn -> M A)
  : M A :=
  fun w =>
    match body w with
    | (Raise e, w') => if isinstance e cls then handler e w' else (Raise e, w')
    | r => r
    end.

(** The elementary changes of the world. *)
Definition record (evs : list event) (w : World) : World :=
  {| now := now w; fs := fs w; requests_made := requests_made w;
     trace := trace w ++ evs |}.

Definition advance (secs : Z) (w : World) : World :=
  {| now := now w + secs; fs := fs w; requests_made := requests_made w;
     trace := trace w |}.

Definition count_request (w : World) : World :=
  {| now := now w; fs := fs w; requests_made := S (requests_made w);
     trace := trace w |}.

Definition store (p : string) (f : file) (w : World) : World :=
  {| now := now w; fs := <[p := f]> (fs w);
     requests_made := requests_made w; trace := trace w |}.

Definition emit (ev : event) : M unit :=
  fun w => (Ok tt, record [ev] w).

Declare Scope py_scope.
Delimit Scope py_scope with py.
Notation "x <- c ;; k" := (bind c (fun x => k))
  (at level 100, c at next level, right associativity) : py_scope.
Notation "c ;; k" := (bind c (fun _ => k))
  (at level 100, right associativity) : py_scope.
Local Open Scope py_scope.

(* ===================================================================== *)
(** ** Library calls *)
(* ===================================================================== *)

(** [str(x)] of an optional header value inside an f-string. *)
Definition str_of_header (h : option string) : string :=
  match h with
  | None => "None"
  | Some s => s
  end.

(** [time.time()] *)
Definition time_time : M Z := fun w => (Ok (now w), w).

(** [with p.open("r") as f: json.load(f)] *)
Definition json_load (p : string) : M json :=
  emit (EvOpenRead p) ;;
  fun w =>
    match fs w !! p with
    | Some (Doc j) => (Ok j, w)
    | Some Garbage => (Raise JSONDecodeError, w)
    | Some Unreadable | None => (Raise OSError, w)
    end.

(** [data.get(key, dflt)] on what [json.load] returned: only a [dict] has
    the method. *)
Definition as_dict (data : json) : M dict :=
  match data with
  | JObj d => ret d
  | _ => raise AttributeError
  end.

(** The integers that convert to a float: those below
    [2 ** 1024 - 2 ** 970] in absolute value. *)
Definition FLOAT_LIMIT : Z := 2 ^ 1024 - 2 ^ 970.

Definition float_ok (z : Z) : bool := Z.abs z <? FLOAT_LIMIT.

(** Whether [t - z] goes through for the clock value [t] and the integer
    [z]: Python converts [z] to a float first, and raises [OverflowError]
    when it cannot.  The clock is a float; a world whose clock is not in
    the range of floats is outside the model, and the difference is then
    taken as it is. *)
Definition converts (t z : Z) : bool := negb (float_ok t) || float_ok z.

(** [t - ts] for a float [t] and a JSON value [ts]. *)
Definition py_sub (t : Z) (ts : json) : M Z :=
  match ts with
  | JNum z => if converts t z then ret (t - z) else raise OverflowError
  | JBool b => ret (t - (if b then 1 else 0))
  | _ => raise TypeError
  end.

(** [int(s)] *)
Definition py_int (s : string) : M Z :=
  match PyStr.int s with
  | Some n => ret n
  | None => raise ValueError
  end.

(** [resp.json()] *)
Definition resp_json (resp : response) : M json :=
  match body resp with
  | Some j => ret j
  | None => raise RequestsJSONDecodeError
  end.

(** [logging.error(...)] *)
Definition logging_error (msg : string) (e : exn) : M unit :=
  emit (EvLogError msg e).

(** [log_request(city, status, source, note)] *)
Definition log_request (city : string) (status : Z) (source note : string)
  : M unit :=
  emit (EvLogInfo city status source note).

(** What the handler hands to the presentation layer:
    [render_template("index.html", weather=.., city=.., source=..,
    cached_time=.., warning=..)], or [flash(message, category)] followed by
    [redirect(url_for("index"))]. *)
Inductive reply :=
  | Render (weather : json) (city source : string) (cached_time : json)
           (warning : option string)
  | Redirect (message category : string).

(* ===================================================================== *)
(** ** [pathlib] paths *)
(* ===================================================================== *)

Module PyPath.

(** [s.split("/")] *)
Fixpoint split (s : string) : list string :=
  match s with
  | EmptyString => [EmptyString]
  | String c s' =>
      if Ascii.eqb c "/" then EmptyString :: split s'
      else
        match split s' with
        | h :: t => String c h :: t
        | [] => [String c EmptyString]
        end
  end.

(** The components [pathlib] keeps: not the empty ones, not [.]. *)
Definition is_part (x : string) : bool :=
  negb (String.eqb x "") && negb (String.eqb x ".").

Definition parts (s : string) : list string := List.filter is_part (split s).

(** The root of a POSIX path: none, [/], or [//] for exactly two leading
    separators. *)
Definition root (s : string) : string :=
  match s with
  | String "/" (String "/" (String "/" _)) => "/"
  | String "/" (String "/" _) => "//"
  | String "/" _ => "/"
  | _ => ""
  end.

Fixpoint join (ps : list string) : string :=
  match ps with
  | [] => ""
  | [x] => x
  | x :: rest => x ++ "/" ++ join rest
  end.

(** [str(path)] for a path of the given root and components. *)
Definition format (r : string) (ps : list string) : string :=
  match r, ps with
  | EmptyString, [] => "."
  | _, _ => r ++ join ps
  end.

(** [str(Path(dir) / name)]: an absolute [name] replaces [dir]. *)
Definition joinpath (dir name : string) : string :=
  match root name with
  | EmptyString => format (root dir) (app (parts dir) (parts name))
  | r => format r (parts name)
  end.

Definition byte_length (s : string) : Z :=
  Z.of_nat (List.length (PyStr.encode_utf8 s)).

Fixpoint is_prefix (xs ys : list string) : bool :=
  match xs, ys with
  | [], _ => true
  | x :: xs', y :: ys' => String.eqb x y && is_prefix xs' ys'
  | _ :: _, [] => false
  end.

(** The components left after the leading [..] ones. *)
Fixpoint skip_parents (ps : list string) : list string :=
  match ps with
  | x :: rest => if String.eqb x ".." then skip_parents rest else ps
  | [] => []
  end.

(** The first name of [p] that is looked up in a directory known to exist:
    the cache directory when [p] lies under [dir], the root or the working
    directory otherwise, or a parent of these. *)
Definition first_below (dir p : string) : string :=
  hd ""
    (skip_parents
       (if String.eqb (root p) (root dir) && is_prefix (parts dir) (parts p)
        then drop (List.length (parts dir)) (parts p)
        else parts p)).

(** Whether looking [p] up fails with [ENAMETOOLONG] whatever the
    directories hold: the whole path takes 4096 bytes or more, or the first
    name looked up in a directory that exists takes more than 255. *)
Definition name_too_long (dir p : string) : bool :=
  (4095 <? byte_length p) || (255 <? byte_length (first_below dir p)).

End PyPath.

Section App.

Variable env : Env.

Let cfg := config env.

(** The largest number of seconds that converts to the nanoseconds of
    [time.sleep]. *)
Definition SLEEP_T_MAX : Z := 9223372036.

(** [time.sleep(secs)]: an integer that does not convert raises
    [OverflowError], a negative one [ValueError], and one the platform
    refuses [OSError]. *)
Definition time_sleep (secs : Z) : M unit :=
  if secs <? - SLEEP_T_MAX then raise OverflowError
  else if secs <? 0 then raise ValueError
  else if secs <=? sleep_limit env then
    fun w => (Ok tt, record [EvSleep secs] (advance secs w))
  else if SLEEP_T_MAX <? secs then raise OverflowError
  else raise OSError.

(** [requests.get(API_URL, params=params, timeout=10)] *)
Definition requests_get (params : list (string * option string))
  : M response :=
  emit (EvGet (API_URL cfg) params) ;;
  fun w =>
    match upstream env (requests_made w) with
    | Resp r => (Ok r, count_request w)
    | NetFail msg => (Raise (RequestException msg), count_request w)
    end.

(** [with p.open("w") as f: json.dump(doc, f, ...)] *)
Definition json_dump (p : string) (doc : json) : M unit :=
  emit (EvOpenWrite p) ;;
  if writable env p then
    fun w => (Ok tt, store p (Doc doc) w)
  else raise OSError.

(** [CACHE_DIR / name] *)
Definition path_join (dir name : string) : string := PyPath.joinpath dir name.

(** Whether [os.stat(p)] fails with another error than the absence of the
    file. *)
Definition stat_fails (p : string) : bool :=
  stat_denied env p || PyPath.name_too_long (CACHE_DIR cfg) p.

(** [p.exists()]: [True] for a file that [os.stat] finds, [False] for one
    that is absent, and the [OSError] of [os.stat] otherwise. *)
Definition path_exists (p : string) : M bool :=
  emit (EvExists p) ;;
  fun w =>
    match fs w !! p with
    | Some _ => (Ok true, w)
    | None => if stat_fails p then (Raise OSError, w) else (Ok false, w)
    end.

(** [cache_path_for(city)]; the call of [slugify] is recorded. *)
Definition cache_path (city : string) : string :=
  path_join (CACHE_DIR cfg) (slugify city ++ ".json").

Definition cache_path_for (city : string) : M string :=
  emit (EvSlugify city) ;;
  ret (cache_path city).

(** [read_cache(city)] *)
Definition read_cache (city : string) : M (option dict) :=
  p <- cache_path_for city ;;
  ex <- path_exists p ;;
  if negb ex then ret None
  else
    try_except
      (data <- json_load p ;;
       d <- as_dict data ;;
       let ts := Py.get_or d "timestamp" (JNum 0) in
       t <- time_time ;;
       age <- py_sub t ts ;;
       if age <=? CACHE_TTL cfg then ret (Some d)
       else ret (Some (Py.mark_expired d)))
      ExceptionC
      (fun e =>
         logging_error ("Failed reading cache for " ++ city) e ;;
         ret None).

(** [write_cache(city, payload)] *)
Definition write_cache (city : string) (payload : json) : M unit :=
  p <- cache_path_for city ;;
  try_except
    (t <- time_time ;;
     let payload_to_store := entry_doc t payload in
     json_dump p (JObj payload_to_store))
    ExceptionC
    (fun e => logging_error ("Failed writing cache for " ++ city) e).

(** [BACKOFF_BASE * (2 ** attempt)] *)
Definition backoff (attempt : Z) : Z := BACKOFF_BASE cfg * 2 ^ attempt.

Definition request_params (city : string) : list (string * option string) :=
  [("q", Some city); ("appid", API_KEY cfg);
   ("units", Some (UNITS cfg)); ("lang", Some (LANG cfg))].

(** The sleep of the 429 branch: [if retry_after: ... else: ...]. *)
Definition sleep_after_429 (hdr : option string) (attempt : Z) : M unit :=
  if PyStr.truthy (default "" hdr) then
    wait <- try_except (py_int (default "" hdr)) ValueErrorC
              (fun _ => ret (backoff attempt)) ;;
    time_sleep wait
  else time_sleep (backoff attempt).

(** One pass through the body of the [while] loop of
    [fetch_weather_from_api]: [inl resp] when the body executes
    [return resp], [inr tt] when it reaches [continue] or falls off its
    end after [attempt += 1]. *)
Definition fetch_attempt (city : string) (attempt : Z)
  : M (response + unit) :=
  try_except
    (resp <- requests_get (request_params city) ;;
     if status_code resp =? 429 then
       let hdr := retry_after resp in
       log_request city (status_code resp) "API"
         ("429 Too Many Requests. Retry-After=" ++ str_of_header hdr) ;;
       sleep_after_429 hdr attempt ;;
       ret (inr tt)
     else ret (inl resp))
    RequestExceptionC
    (fun e =>
       log_request city 0 "API"
         ("RequestException: " ++
          match e with RequestException msg => msg | _ => "" end) ;;
       time_sleep (backoff attempt) ;;
       ret (inr tt)).

(** The [while attempt < MAX_RETRIES] loop.  [remaining] is the loop's
    variant [MAX_RETRIES - attempt]: the guard holds exactly when it is
    not zero, and every pass that does not return adds one to [attempt]. *)
Fixpoint fetch_loop (city : string) (remaining : nat) (attempt : Z)
  : M (option response) :=
  match remaining with
  | O => ret None
  | S remaining' =>
      r <- fetch_attempt city attempt ;;
      match r with
      | inl resp => ret (Some resp)
      | inr _ => fetch_loop city remaining' (attempt + 1)
      end
  end.

(** The same loop with its guard written out and a bound on the number of
    passes; [None] when the bound is reached. *)
Fixpoint fetch_while (city : string) (fuel : nat) (attempt : Z) (w : World)
  : option (outcome (option response) * World) :=
  match fuel with
  | O => None
  | S fuel' =>
      if attempt <? MAX_RETRIES cfg then
        match fetch_attempt city attempt w with
        | (Ok (inl resp), w') => Some (Ok (Some resp), w')
        | (Ok (inr _), w') => fetch_while city fuel' (attempt + 1) w'
        | (Raise e, w') => Some (Raise e, w')
        end
      else Some (Ok None, w)
  end.

(** [fetch_weather_from_api(city)] *)
Definition fetch_weather_from_api (city : string) : M (option response) :=
  if negb (PyStr.truthy (default "" (API_KEY cfg))) then
    raise (RuntimeError "API_KEY not set. Put your key in .env")
  else fetch_loop city (Z.to_nat (MAX_RETRIES cfg)) 0.

(** The warnings and flash messages of the handler. *)
Definition msg_unreachable_cached : string :=
  "API is unreachable; showing the latest cached data.".
Definition msg_rate_limited_cached : string :=
  "Request rate limit reached; showing cached data.".
Definition msg_server_error_cached : string :=
  "Server error; showing the latest cached data.".

(** [str(status)] *)
Definition str_of_status (status : Z) : string := pretty status.

(** The part of [weather] after [resp is None] has been excluded: the
    dispatch on [resp.status_code]. *)
Definition dispatch (city : string) (cache : option dict) (resp : response)
  : M reply :=
  let status := status_code resp in
  if status =? 200 then
    try_except
      (payload <- resp_json resp ;;
       write_cache city payload ;;
       log_request city 200 "API" "fetched and cached" ;;
       t <- time_time ;;
       ret (Render payload city "api" (JNum t) None))
      ExceptionC
      (fun e =>
         logging_error ("Failed parsing JSON for " ++ city) e ;;
         ret (Redirect "Error processing the received data." "danger"))
  else if status =? 401 then
    log_request city 401 "API" "invalid api key" ;;
    ret (Redirect "Invalid API key. Please check your configuration."
                  "danger")
  else if status =? 404 then
    log_request city 404 "API" "city not found" ;;
    ret (Redirect "City not found. Please check the city name." "warning")
  else if status =? 429 then
    log_request city 429 "API" "rate limited" ;;
    if Py.truthy_cache cache then
      t <- time_time ;;
      let c := default ∅ cache in
      let ts := Py.get_or c "timestamp" (JNum t) in
      ret (Render (Py.get c "data") city "cache_rate_limited" ts
                  (Some msg_rate_limited_cached))
    else
      ret (Redirect "Rate limit reached and no cached data is available."
                    "danger")
  else if (500 <=? status) && (status <? 600) then
    log_request city status "API" "server error" ;;
    if Py.truthy_cache cache then
      t <- time_time ;;
      let c := default ∅ cache in
      let ts := Py.get_or c "timestamp" (JNum t) in
      ret (Render (Py.get c "data") city "cache_server_error" ts
                  (Some msg_server_error_cached))
    else
      ret (Redirect "Server error occurred and no cached data is available."
                    "danger")
  else
    log_request city status "API" "other error" ;;
    ret (Redirect ("Error fetching data: HTTP " ++ str_of_status status)
                  "danger").

(** [cache and not cache.get("expired")] *)
Definition cache_is_fresh (cache : option dict) : bool :=
  Py.truthy_cache cache
  && negb (Py.truthy (Py.get (default ∅ cache) "expired")).

(** The engine path of [weather]: all of the handler below the check of
    the form field, for the stripped, non-empty [city]. *)
Definition resolve (city : string) : M reply :=
  (* 1. Check cache *)
  cache <- read_cache city ;;
  if cache_is_fresh cache then
    log_request city 200 "Cache" "served from cache" ;;
    t <- time_time ;;
    let c := default ∅ cache in
    let data := Py.get c "data" in
    let ts := Py.get_or c "timestamp" (JNum t) in
    ret (Render data city "cache" ts None)
  else
    (* 2. Try API *)
    resp <- fetch_weather_from_api city ;;
    match resp with
    | None =>
        if Py.truthy_cache cache then
          log_request city 0 "Cache" "API unreachable, served expired cache" ;;
          t <- time_time ;;
          let c := default ∅ cache in
          let ts := Py.get_or c "timestamp" (JNum t) in
          ret (Render (Py.get c "data") city "cache_expired" ts
                      (Some msg_unreachable_cached))
        else
          ret (Redirect
                 "Service is unreachable and no cached data is available."
                 "danger")
    | Some resp => dispatch city cache resp
    end.

(** [weather()], given [request.form.get("city")]: [None] when the form
    has no such field. *)
Definition weather (form_city : option string) : M reply :=
  let city := PyStr.strip (default "" form_city) in
  if negb (PyStr.truthy city) then
    ret (Redirect "Please enter a city name." "warning")
  else resolve city.

End App.

(* ===================================================================== *)
(** ** Definitions used to state the properties *)
(* ===================================================================== *)

(** What a cache file reads as at time [t]: the exception raised inside the
    [try] block of [read_cache], or the dictionary it returns. *)
Definition decode (env : Env) (t : Z) (f : file) : exn + dict :=
  match f with
  | Unreadable => inl OSError
  | Garbage => inl JSONDecodeError
  | Doc (JObj d) =>
      match Py.get_or d "timestamp" (JNum 0) with
      | JNum z =>
          if converts t z then
            inr (if t - z <=? CACHE_TTL (config env)
                 then d else Py.mark_expired d)
          else inl OverflowError
      | JBool b =>
          inr (if t - (if b then 1 else 0) <=? CACHE_TTL (config env)
               then d else Py.mark_expired d)
      | _ => inl TypeError
      end
  | Doc _ => inl AttributeError
  end.

(** The exception [time.sleep] raises for a negative number of seconds. *)
Definition negative_sleep_error (secs : Z) : exn :=
  if secs <? - SLEEP_T_MAX then OverflowError else ValueError.

(** A duration [time.sleep] accepts. *)
Definition sleep_ok (env : Env) (secs : Z) : Prop :=
  0 <= secs <= sleep_limit env.

(** The duration slept after a 429 response whose [Retry-After] header is
    [hdr]: the header's value when [int] parses it, the back-off otherwise.
    An empty header is refused by [int] as well. *)
Definition retry_wait (env : Env) (hdr : option string) (attempt : Z) : Z :=
  match hdr ≫= PyStr.int with
  | Some n => n
  | None => backoff env attempt
  end.

(** The world after an attempt that was logged as [note] and followed by a
    sleep of [secs] seconds. *)
Definition after_attempt (env : Env) (city : string) (note : event)
    (secs : Z) (w : World) : World :=
  {| now := now w + secs;
     fs := fs w;
     requests_made := S (requests_made w);
     trace := trace w ++ [EvGet (API_URL (config env)) (request_params env city);
                          note; EvSleep secs] |}.

Definition note_429 (city : string) (hdr : option string) : event :=
  EvLogInfo city 429 "API"
    ("429 Too Many Requests. Retry-After=" ++ str_of_header hdr).

Definition note_netfail (city msg : string) : event :=
  EvLogInfo city 0 "API" ("RequestException: " ++ msg).

(** The durations the loop may have to sleep are all accepted. *)
Definition sleeps_accepted (env : Env) : Prop :=
  (forall attempt, 0 <= attempt < MAX_RETRIES (config env) ->
     sleep_ok env (backoff env attempt))
  /\ (forall i r n, upstream env i = Resp r -> status_code r = 429 ->
        retry_after r ≫= PyStr.int = Some n -> sleep_ok env n).

(** A computation that leaves every cache file as it found it, whether it
    returns or raises. *)
Definition preserves_fs {A} (c : M A) : Prop :=
  forall w, fs (c w).2 = fs w.

(** A text made of white space only (the empty text is one). *)
Fixpoint only_whitespace (s : string) : bool :=
  match s with
  | EmptyString => true
  | String c s' => PyStr.isspace c && only_whitespace s'
  end.

(** The ways in which loading a cache file fails at time [t], with the
    exception each raises inside the [try] block of [read_cache]: the file
    cannot be opened or read; its text is not JSON; the document is not an
    object, so has no [get]; its ["timestamp"] is not a number, so cannot be
    subtracted, or is an integer that does not convert to a float. *)
Definition is_object (j : json) : bool :=
  match j with JObj _ => true | _ => false end.

Definition is_number (j : json) : bool :=
  match j with JNum _ | JBool _ => true | _ => false end.

Inductive load_fails (t : Z) : file -> exn -> Prop :=
  | fails_io : load_fails t Unreadable OSError
  | fails_syntax : load_fails t Garbage JSONDecodeError
  | fails_shape j :
      is_object j = false -> load_fails t (Doc j) AttributeError
  | fails_timestamp d :
      is_number (Py.get_or d "timestamp" (JNum 0)) = false ->
      load_fails t (Doc (JObj d)) TypeError
  | fails_overflow d z :
      Py.get_or d "timestamp" (JNum 0) = JNum z ->
      converts t z = false ->
      load_fails t (Doc (JObj d)) OverflowError.

(** The events [read_cache] records when it finds and loads a file. *)
Definition read_events (env : Env) (city : string) : list event :=
  [EvSlugify city; EvExists (cache_path env city);
   EvOpenRead (cache_path env city)].


(** A computation all of whose recorded events satisfy [P], whether it
    returns or raises. *)
Definition emits_only (P : event -> Prop) {A} (c : M A) : Prop :=
  forall w, exists evs, trace (c w).2 = (trace w ++ evs)%list /\ Forall P evs.

(** An event that is not a call of [slugify] on another text than [city]. *)
Definition slugify_on (city : string) (ev : event) : Prop :=
  match ev with
  | EvSlugify text => text = city
  | _ => True
  end.

(** *** Concrete configurations, providers and worlds *)

Definition demo_config (key : option string) : Config :=
  {| API_URL := Some "https://api.openweathermap.org/data/2.5/weather";
     CACHE_TTL := 1800;
     CACHE_DIR := "cache";
     UNITS := "metric";
     LANG := "en";
     MAX_RETRIES := 3;
     BACKOFF_BASE := 1;
     API_KEY := key |}.

Definition demo_env (key : option string) (up : nat -> http_result) : Env :=
  {| config := demo_config key;
     upstream := up;
     writable := fun _ => true;
     stat_denied := fun _ => false;
     sleep_limit := 9223372036 |}.

Definition answer (status : Z) (hdr : option string) (b : option json)
  : http_result :=
  Resp {| status_code := status; retry_after := hdr; body := b |}.

Definition always (r : http_result) : nat -> http_result := fun _ => r.

Definition demo_payload : json :=
  JObj {["name" := JStr "Paris"; "main" := JObj {["temp" := JNum 21]}]}.

(** A city name of 300 letters. *)
Definition long_city : string :=
  string_of_list_ascii (repeat "a"%char 300).

Definition empty_world : World :=
  {| now := 1700000000; fs := ∅; requests_made := 0; trace := [] |}.

(** A world whose cache holds [f] for Paris. *)
Definition paris_world (f : file) : World :=
  {| now := 1700000000;
     fs := {["cache/paris_ccbee73cd81c7f42405e1920409247ec.json" := f]};
     requests_made := 0;
     trace := [] |}.

Definition fresh_paris : World :=
  paris_world (Doc (JObj (entry_doc 1699999000 demo_payload))).

Definition stale_paris : World :=
  paris_world (Doc (JObj (entry_doc 1600000000 demo_payload))).

(** The duration the specification prescribes after a 429 response: the
    header's value when it parses as a positive integer, the back-off
    otherwise. *)
Definition spec_retry_wait (env : Env) (hdr : option string) (attempt : Z) : Z :=
  match hdr ≫= PyStr.int with
  | Some n => if 0 <? n then n else backoff env attempt
  | None => backoff env attempt
  end.

(** The reading of the specification's 429 rule on one attempt. *)
Definition sleeps_hint_only_if_positive (env : Env) : Prop :=
  forall city attempt w r,
    upstream env (requests_made w) = Resp r ->
    status_code r = 429 ->
    fetch_attempt env city attempt w
    = (Ok (inr tt),
       after_attempt env city (note_429 city (retry_after r))
         (spec_retry_wait env (retry_after r) attempt) w).

(** [resolve] returns some outcome, whatever the configuration. *)
Definition resolve_never_raises : Prop :=
  forall env city w, exists r w', resolve env city w = (Ok r, w').

(** *** Further vocabulary: texts, providers, replies *)

(** Every character of [s] satisfies [p]. *)
Fixpoint all_chars (p : ascii -> bool) (s : string) : bool :=
  match s with
  | EmptyString => true
  | String c s' => p c && all_chars p s'
  end.

Definition is_hex_digit (c : ascii) : bool :=
  let n := PyStr.code c in
  ((48 <=? n) && (n <=? 57)) || ((97 <=? n) && (n <=? 102)).

Definition not_space (c : ascii) : bool := negb (Ascii.eqb c " ").

(** An answer the retry loop does not hand back: a transport failure or a
    429 response. *)
Definition retryable (r : http_result) : bool :=
  match r with
  | NetFail _ => true
  | Resp r => status_code r =? 429
  end.

(** A provider that gives the listed answers in turn, then [rest] for ever. *)
Definition script (answers : list http_result) (rest : http_result)
  : nat -> http_result :=
  fun n => nth n answers rest.

(** The [source] of a rendering; [None] for a redirect. *)
Definition rendered_source (r : reply) : option string :=
  match r with
  | Render _ _ source _ _ => Some source
  | Redirect _ _ => None
  end.

Definition is_redirect (r : reply) : bool :=
  match r with
  | Redirect _ _ => true
  | Render _ _ _ _ _ => false
  end.

(** An environment like [demo_env] in which no file can be written. *)
Definition readonly_env (key : option string) (up : nat -> http_result) : Env :=
  {| config := demo_config key;
     upstream := up;
     writable := fun _ => false;
     stat_denied := fun _ => false;
     sleep_limit := 9223372036 |}.

(** An environment like [demo_env] with another retry bound. *)
Definition retries_env (retries : Z) (up : nat -> http_result) : Env :=
  {| config := {| API_URL := Some "https://api.openweathermap.org/data/2.5/weather";
                  CACHE_TTL := 1800;
                  CACHE_DIR := "cache";
                  UNITS := "metric";
                  LANG := "en";
                  MAX_RETRIES := retries;
                  BACKOFF_BASE := 1;
                  API_KEY := Some "secret" |};
     upstream := up;
     writable := fun _ => true;
     stat_denied := fun _ => false;
     sleep_limit := 9223372036 |}.

(** A computation that makes no HTTP request and does not turn the clock
    back, whether it returns or raises. *)
Definition quiet {A} (c : M A) : Prop :=
  forall w, requests_made (c w).2 = requests_made w /\ now w <= now (c w).2.

(** A computation that makes exactly one HTTP request, whether it returns
    or raises, and does not turn the clock back. *)
Definition one_request {A} (c : M A) : Prop :=
  forall w,
    requests_made (c w).2 = S (requests_made w) /\ now w <= now (c w).2.

(** A computation that makes at most [n] HTTP requests and does not turn
    the clock back. *)
Definition at_most (n : nat) {A} (c : M A) : Prop :=
  forall w,
    (requests_made w <= requests_made (c w).2 <= requests_made w + n)%nat
    /\ now w <= now (c w).2.

Arguments slugify : simpl never.
Arguments cache_path : simpl never.
Arguments PyStr.int : simpl never.
Arguments sleep_after_429 : simpl never.
Arguments time_sleep : simpl never.
Arguments float_ok : simpl never.
Arguments converts : simpl never.
Arguments stat_fails : simpl never.

(* ===================================================================== *)
(** ** The key codec on examples *)
(* ===================================================================== *)

Example slugify_Paris :
  slugify "  Paris " = "paris_ccbee73cd81c7f42405e1920409247ec".
Proof. vm_compute. reflexivity. Qed.

(* ===================================================================== *)
(** ** The library calls on examples *)
(* ===================================================================== *)

(** [Path("cache") / "./a//b_x.json"] and [Path("cache") / "/tmp/x.json"]. *)
Example joinpath_cleans_up :
  PyPath.joinpath "cache" "./a//b_x.json" = "cache/a/b_x.json"
  /\ PyPath.joinpath "cache/" "x.json" = "cache/x.json"
  /\ PyPath.joinpath "cache" "/tmp/x.json" = "/tmp/x.json"
  /\ PyPath.joinpath "." "x.json" = "x.json".
Proof. repeat split; vm_compute; reflexivity. Qed.

(** A file name of 255 bytes is looked up, one of 256 is refused: the
    names of a city of 217 letters and of one of 218. *)
Example name_length_limit :
  stat_fails (demo_env None (always (NetFail "down")))
    (cache_path (demo_env None (always (NetFail "down")))
       (string_of_list_ascii (repeat "a"%char 217))) = false
  /\ stat_fails (demo_env None (always (NetFail "down")))
       (cache_path (demo_env None (always (NetFail "down")))
          (string_of_list_ascii (repeat "a"%char 218))) = true.
Proof. split; vm_compute; reflexivity. Qed.

(** The same for a name that is looked up in the parent of the cache
    directory, while a long name below a short one depends on whether that
    one is there. *)
Example name_length_limit_parent :
  PyPath.name_too_long "cache"
    (PyPath.joinpath "cache"
       ("../" ++ string_of_list_ascii (repeat "b"%char 300))) = true
  /\ PyPath.name_too_long "cache"
       (PyPath.joinpath "cache"
          ("missing/" ++ string_of_list_ascii (repeat "b"%char 300))) = false.
Proof. split; vm_compute; reflexivity. Qed.

(** [int] takes 4300 digits and refuses 4301, leading zeros counted. *)
Example int_digit_limit :
  PyStr.int (string_of_list_ascii (repeat "0"%char 4299) ++ "5") = Some 5
  /\ PyStr.int (string_of_list_ascii (repeat "0"%char 4300) ++ "5") = None
  /\ PyStr.int "-10000000000" = Some (-10000000000).
Proof. repeat split; vm_compute; reflexivity. Qed.

(** [1700000000.0 - 10 ** 400] raises, [1700000000.0 - 10 ** 300] does
    not. *)
Example py_sub_overflow :
  py_sub 1700000000 (JNum (10 ^ 400)) empty_world
  = (Raise OverflowError, empty_world)
  /\ py_sub 1700000000 (JNum (- 10 ^ 400)) empty_world
     = (Raise OverflowError, empty_world)
  /\ py_sub 1700000000 (JNum (10 ^ 300)) empty_world
     = (Ok (1700000000 - 10 ^ 300), empty_world).
Proof. repeat split; vm_compute; reflexivity. Qed.

(** [time.sleep(-5)], [time.sleep(-9223372036)] and
    [time.sleep(-9223372037)]. *)
Example time_sleep_negative_examples :
  time_sleep (demo_env None (always (NetFail "down"))) (-5) empty_world
  = (Raise ValueError, empty_world)
  /\ time_sleep (demo_env None (always (NetFail "down"))) (-9223372036)
       empty_world
     = (Raise ValueError, empty_world)
  /\ time_sleep (demo_env None (always (NetFail "down"))) (-9223372037)
       empty_world
     = (Raise OverflowError, empty_world).
Proof. repeat split; vm_compute; reflexivity. Qed.

(* ===================================================================== *)
(** ** Elementary facts about the world *)
(* ===================================================================== *)

Lemma record_nil w : record [] w = w.
Proof. destruct w; unfold record; simpl. by rewrite app_nil_r. Qed.

Lemma record_record evs1 evs2 w :
  record evs2 (record evs1 w) = record (evs1 ++ evs2) w.
Proof. unfold record; simpl. by rewrite app_assoc. Qed.

Lemma record_advance evs secs w :
  record evs (advance secs w) = advance secs (record evs w).
Proof. reflexivity. Qed.

Lemma record_count_request evs w :
  record evs (count_request w) = count_request (record evs w).
Proof. reflexivity. Qed.

Section ReadWrite.

Variable env : Env.

Lemma read_cache_absent city w :
  fs w !! cache_path env city = None ->
  stat_fails env (cache_path env city) = false ->
  read_cache env city w
  = (Ok None, record [EvSlugify city; EvExists (cache_path env city)] w).
Proof.
  intros Hnone Hstat.
  unfold read_cache, cache_path_for, path_exists, bind, emit, ret; simpl.
  rewrite Hnone, Hstat. simpl. by rewrite record_record.
Qed.

(** The error of [p.exists()] is raised before the [try] is entered. *)
Lemma read_cache_stat_fails city w :
  fs w !! cache_path env city = None ->
  stat_fails env (cache_path env city) = true ->
  read_cache env city w
  = (Raise OSError,
     record [EvSlugify city; EvExists (cache_path env city)] w).
Proof.
  intros Hnone Hstat.
  unfold read_cache, cache_path_for, path_exists, bind, emit, ret; simpl.
  rewrite Hnone, Hstat. simpl. by rewrite record_record.
Qed.

Lemma read_cache_present city w f :
  fs w !! cache_path env city = Some f ->
  read_cache env city w
  = match decode env (now w) f with
    | inr d =>
        (Ok (Some d),
         record [EvSlugify city; EvExists (cache_path env city);
                 EvOpenRead (cache_path env city)] w)
    | inl e =>
        (Ok None,
         record [EvSlugify city; EvExists (cache_path env city);
                 EvOpenRead (cache_path env city);
                 EvLogError ("Failed reading cache for " ++ city) e] w)
    end.
Proof.
  intros Hf.
  unfold read_cache, cache_path_for, path_exists, json_load, try_except,
    logging_error, bind, emit, ret; simpl.
  rewrite Hf. simpl. rewrite Hf.
  destruct f as [| |j]; simpl; rewrite ?record_record; try reflexivity.
  destruct j; simpl; rewrite ?record_record; try reflexivity.
  unfold time_time, py_sub, bind, ret, raise; simpl.
  destruct (Py.get_or m "timestamp" (JNum 0)); simpl;
    rewrite ?record_record; try reflexivity.
  - destruct (_ <=? _); reflexivity.
  - destruct (converts _ _); simpl; rewrite ?record_record;
      [|reflexivity].
    destruct (_ <=? _); reflexivity.
Qed.

(** Whatever [read_cache] does, the world it leaves is the one it found
    with some events recorded. *)
Lemma read_cache_world city w :
  exists r evs, read_cache env city w = (r, record evs w).
Proof.
  destruct (fs w !! cache_path env city) as [f|] eqn:Hf.
  - rewrite (read_cache_present _ _ _ Hf).
    destruct (decode env (now w) f); eauto.
  - destruct (stat_fails env (cache_path env city)) eqn:Hstat.
    + rewrite (read_cache_stat_fails _ _ Hf Hstat). eauto.
    + rewrite (read_cache_absent _ _ Hf Hstat). eauto.
Qed.

(** [read_cache] returns whenever [p.exists()] does: nothing escapes its
    [try]. *)
Lemma read_cache_total city w :
  stat_fails env (cache_path env city) = false ->
  exists r evs, read_cache env city w = (Ok r, record evs w).
Proof.
  intros Hstat. destruct (fs w !! cache_path env city) as [f|] eqn:Hf.
  - rewrite (read_cache_present _ _ _ Hf).
    destruct (decode env (now w) f); eauto.
  - rewrite (read_cache_absent _ _ Hf Hstat). eauto.
Qed.

Lemma write_cache_writable city payload w :
  writable env (cache_path env city) = true ->
  write_cache env city payload w
  = (Ok tt,
     store (cache_path env city) (Doc (JObj (entry_doc (now w) payload)))
       (record [EvSlugify city; EvOpenWrite (cache_path env city)] w)).
Proof.
  intros Hw.
  unfold write_cache, cache_path_for, json_dump, try_except, time_time,
    bind, emit, ret; simpl.
  rewrite Hw. simpl. by rewrite record_record.
Qed.

Lemma write_cache_refused city payload w :
  writable env (cache_path env city) = false ->
  write_cache env city payload w
  = (Ok tt,
     record [EvSlugify city; EvOpenWrite (cache_path env city);
             EvLogError ("Failed writing cache for " ++ city) OSError] w).
Proof.
  intros Hw.
  unfold write_cache, cache_path_for, json_dump, try_except, time_time,
    logging_error, raise, bind, emit, ret; simpl.
  rewrite Hw. simpl. by rewrite !record_record.
Qed.

End ReadWrite.

(* ===================================================================== *)
(** ** The upstream client, one attempt at a time *)
(* ===================================================================== *)

Lemma int_empty : PyStr.int "" = None.
Proof. reflexivity. Qed.

Lemma truthy_false_empty s : PyStr.truthy s = false -> s = "".
Proof. by destruct s. Qed.

Section Attempt.

Variable env : Env.

Lemma time_sleep_ok secs w :
  sleep_ok env secs ->
  time_sleep env secs w = (Ok tt, record [EvSleep secs] (advance secs w)).
Proof.
  intros [Hlo Hhi]. unfold time_sleep.
  destruct (Z.ltb_spec secs (- SLEEP_T_MAX)); [unfold SLEEP_T_MAX in *; lia|].
  destruct (Z.ltb_spec secs 0); [lia|].
  destruct (Z.leb_spec secs (sleep_limit env)); [reflexivity | lia].
Qed.

Lemma time_sleep_negative secs w :
  secs < 0 ->
  time_sleep env secs w = (Raise (negative_sleep_error secs), w).
Proof.
  intros Hneg. unfold time_sleep, negative_sleep_error.
  destruct (secs <? - SLEEP_T_MAX); [reflexivity|].
  destruct (Z.ltb_spec secs 0); [reflexivity | lia].
Qed.

(** The sleep of the 429 branch, written as the code has it, is a sleep of
    [retry_wait]. *)
Lemma sleep_429 hdr attempt w :
  sleep_after_429 env hdr attempt w
  = time_sleep env (retry_wait env hdr attempt) w.
Proof.
  unfold sleep_after_429, retry_wait.
  destruct hdr as [s|]; simpl; [|reflexivity].
  destruct (PyStr.truthy s) eqn:Ht.
  - unfold bind, try_except, py_int.
    destruct (PyStr.int s); reflexivity.
  - apply truthy_false_empty in Ht. subst s. by rewrite int_empty.
Qed.

Lemma fetch_attempt_netfail city attempt w msg :
  upstream env (requests_made w) = NetFail msg ->
  sleep_ok env (backoff env attempt) ->
  fetch_attempt env city attempt w
  = (Ok (inr tt),
     after_attempt env city (note_netfail city msg) (backoff env attempt) w).
Proof.
  intros Hup Hs.
  unfold fetch_attempt, try_except, requests_get, log_request, bind, emit.
  simpl. rewrite Hup. simpl.
  rewrite time_sleep_ok by done.
  unfold ret, after_attempt, record, advance; simpl.
  by rewrite <- !app_assoc.
Qed.

Lemma fetch_attempt_429 city attempt w r :
  upstream env (requests_made w) = Resp r ->
  status_code r = 429 ->
  sleep_ok env (retry_wait env (retry_after r) attempt) ->
  fetch_attempt env city attempt w
  = (Ok (inr tt),
     after_attempt env city (note_429 city (retry_after r))
       (retry_wait env (retry_after r) attempt) w).
Proof.
  intros Hup Hst Hs.
  unfold fetch_attempt, try_except, requests_get, log_request.
  unfold bind at 1 2. unfold emit. simpl. rewrite Hup. rewrite Hst. simpl.
  unfold bind at 1 2. simpl.
  unfold bind at 1. rewrite sleep_429. rewrite time_sleep_ok by done.
  unfold ret, after_attempt, note_429, record, advance; simpl.
  by rewrite <- !app_assoc.
Qed.

Lemma fetch_attempt_other city attempt w r :
  upstream env (requests_made w) = Resp r ->
  status_code r <> 429 ->
  fetch_attempt env city attempt w
  = (Ok (inl r),
     count_request
       (record [EvGet (API_URL (config env)) (request_params env city)] w)).
Proof.
  intros Hup Hst.
  unfold fetch_attempt, try_except, requests_get, bind, emit.
  simpl. rewrite Hup.
  destruct (Z.eqb_spec (status_code r) 429); [done|]. reflexivity.
Qed.

(** An attempt that returns a response returns one that is not a 429. *)
Lemma fetch_attempt_inl city attempt w r w' :
  fetch_attempt env city attempt w = (Ok (inl r), w') ->
  upstream env (requests_made w) = Resp r /\ status_code r <> 429
  /\ w' = count_request
            (record [EvGet (API_URL (config env)) (request_params env city)] w).
Proof.
  unfold fetch_attempt, try_except, requests_get, log_request.
  unfold bind at 1 2. unfold emit. simpl.
  destruct (upstream env (requests_made w)) as [msg|r0] eqn:Hup; simpl.
  - unfold bind. simpl.
    destruct (time_sleep env _ _) as [[[]|e] w1]; simpl; unfold ret; done.
  - destruct (Z.eqb_spec (status_code r0) 429) as [H429|H429].
    + unfold bind at 1 2. simpl. unfold bind at 1. rewrite sleep_429.
      destruct (time_sleep env _ _) as [[[]|e] w1]; simpl.
      * unfold ret; done.
      * destruct e; try done; unfold bind; simpl;
          destruct (time_sleep env _ _) as [[[]|e'] w2]; simpl;
          unfold ret; done.
    + unfold ret. intros [= <- <-]. done.
Qed.

End Attempt.

(* ===================================================================== *)
(** ** Frame: who touches the cache directory *)
(* ===================================================================== *)

Create HintDb frame.

Lemma preserves_ret {A} (a : A) : preserves_fs (ret a).
Proof. by intros w. Qed.

Lemma preserves_raise {A} (e : exn) : preserves_fs (@raise A e).
Proof. by intros w. Qed.

Lemma preserves_emit ev : preserves_fs (emit ev).
Proof. by intros w. Qed.

Lemma preserves_bind {A B} (c : M A) (k : A -> M B) :
  preserves_fs c -> (forall a, preserves_fs (k a)) -> preserves_fs (bind c k).
Proof.
  intros Hc Hk w. unfold bind. specialize (Hc w).
  destruct (c w) as [[a|e] w1]; simpl in *; [|done].
  by rewrite Hk.
Qed.

Lemma preserves_try {A} (body : M A) cls (handler : exn -> M A) :
  preserves_fs body -> (forall e, preserves_fs (handler e)) ->
  preserves_fs (try_except body cls handler).
Proof.
  intros Hb Hh w. unfold try_except. specialize (Hb w).
  destruct (body w) as [[a|e] w1]; simpl in *; [done|].
  destruct (isinstance e cls); simpl; [|done].
  by rewrite Hh.
Qed.

Lemma preserves_if {A} (b : bool) (c1 c2 : M A) :
  preserves_fs c1 -> preserves_fs c2 -> preserves_fs (if b then c1 else c2).
Proof. by destruct b. Qed.

Lemma preserves_time_time : preserves_fs time_time.
Proof. by intros w. Qed.

Lemma preserves_time_sleep env secs : preserves_fs (time_sleep env secs).
Proof.
  intros w. unfold time_sleep.
  destruct (secs <? - SLEEP_T_MAX); [done|]. destruct (secs <? 0); [done|].
  destruct (secs <=? sleep_limit env); [done|].
  by destruct (SLEEP_T_MAX <? secs).
Qed.

Lemma preserves_log_request city status source note :
  preserves_fs (log_request city status source note).
Proof. by intros w. Qed.

Lemma preserves_logging_error msg e : preserves_fs (logging_error msg e).
Proof. by intros w. Qed.

Lemma preserves_py_int s : preserves_fs (py_int s).
Proof. intros w. unfold py_int. by destruct (PyStr.int s). Qed.

Lemma preserves_requests_get env params :
  preserves_fs (requests_get env params).
Proof.
  intros w. unfold requests_get, bind, emit. simpl.
  by destruct (upstream env (requests_made w)).
Qed.

#[local] Hint Resolve preserves_ret preserves_raise preserves_emit
  preserves_time_time preserves_time_sleep preserves_log_request
  preserves_logging_error preserves_py_int preserves_requests_get : frame.
#[local] Hint Extern 2 (preserves_fs (bind _ _)) =>
  apply preserves_bind; [|intros ?] : frame.
#[local] Hint Extern 2 (preserves_fs (try_except _ _ _)) =>
  apply preserves_try; [|intros ?] : frame.
#[local] Hint Extern 2 (preserves_fs (if _ then _ else _)) =>
  apply preserves_if : frame.
#[local] Hint Extern 3 (preserves_fs (match ?x with _ => _ end)) =>
  destruct x : frame.

Section Frame.

Variable env : Env.

Lemma preserves_sleep_after_429 hdr attempt :
  preserves_fs (sleep_after_429 env hdr attempt).
Proof. unfold sleep_after_429. auto 10 with frame. Qed.

Lemma preserves_fetch_attempt city attempt :
  preserves_fs (fetch_attempt env city attempt).
Proof.
  unfold fetch_attempt.
  pose proof preserves_sleep_after_429. auto 12 with frame.
Qed.

Lemma preserves_fetch_loop city remaining attempt :
  preserves_fs (fetch_loop env city remaining attempt).
Proof.
  revert attempt. induction remaining as [|k IH]; intros attempt; simpl.
  - auto with frame.
  - apply preserves_bind; [apply preserves_fetch_attempt|].
    intros [r|[]]; auto with frame.
Qed.

Lemma preserves_fetch_weather_from_api city :
  preserves_fs (fetch_weather_from_api env city).
Proof.
  unfold fetch_weather_from_api.
  apply preserves_if; [auto with frame | apply preserves_fetch_loop].
Qed.

(** Every branch of [dispatch] but the one for status 200 leaves the cache
    directory alone. *)
Lemma preserves_dispatch_not_200 city cache resp :
  status_code resp <> 200 ->
  preserves_fs (dispatch env city cache resp).
Proof.
  intros Hst. unfold dispatch.
  destruct (Z.eqb_spec (status_code resp) 200); [done|].
  auto 12 with frame.
Qed.

End Frame.

(* ===================================================================== *)
(** ** The retry loop *)
(* ===================================================================== *)

Section Loop.

Variable env : Env.

Lemma fetch_loop_step city remaining attempt w :
  fetch_loop env city (S remaining) attempt w
  = match fetch_attempt env city attempt w with
    | (Ok (inl resp), w') => (Ok (Some resp), w')
    | (Ok (inr _), w') => fetch_loop env city remaining (attempt + 1) w'
    | (Raise e, w') => (Raise e, w')
    end.
Proof.
  simpl. unfold bind.
  destruct (fetch_attempt env city attempt w) as [[[r|u]|e] w']; reflexivity.
Qed.

(** With more fuel than [MAX_RETRIES - attempt], the guarded loop ends, and
    in the result of [fetch_loop] run on that variant. *)
Lemma fetch_while_loop city fuel attempt w :
  (Z.to_nat (MAX_RETRIES (config env) - attempt) < fuel)%nat ->
  fetch_while env city fuel attempt w
  = Some (fetch_loop env city
            (Z.to_nat (MAX_RETRIES (config env) - attempt)) attempt w).
Proof.
  revert attempt w. induction fuel as [|fuel IH]; intros attempt w Hfuel.
  - lia.
  - simpl fetch_while.
    destruct (Z.ltb_spec attempt (MAX_RETRIES (config env))) as [Hlt|Hge].
    + replace (Z.to_nat (MAX_RETRIES (config env) - attempt))
        with (S (Z.to_nat (MAX_RETRIES (config env) - (attempt + 1))))
        in * by lia.
      rewrite fetch_loop_step.
      destruct (fetch_attempt env city attempt w) as [[[r|u]|e] w'];
        try reflexivity.
      apply IH. lia.
    + replace (Z.to_nat (MAX_RETRIES (config env) - attempt)) with O by lia.
      reflexivity.
Qed.

(** The loop never hands a 429 response to its caller: it retries them. *)
Lemma fetch_loop_not_429 city remaining attempt w resp w' :
  fetch_loop env city remaining attempt w = (Ok (Some resp), w') ->
  status_code resp <> 429.
Proof.
  revert attempt w. induction remaining as [|k IH]; intros attempt w.
  - simpl. unfold ret. intros [=].
  - rewrite fetch_loop_step.
    destruct (fetch_attempt env city attempt w) as [[[r|u]|e] w1] eqn:Ha.
    + intros [= <- <-]. by apply fetch_attempt_inl in Ha as (_ & ? & _).
    + apply IH.
    + intros [=].
Qed.

Lemma fetch_weather_from_api_not_429 city w resp w' :
  fetch_weather_from_api env city w = (Ok (Some resp), w') ->
  status_code resp <> 429.
Proof.
  unfold fetch_weather_from_api.
  destruct (negb _); [intros [=] | apply fetch_loop_not_429].
Qed.

Lemma retry_wait_accepted i r attempt :
  sleeps_accepted env ->
  0 <= attempt < MAX_RETRIES (config env) ->
  upstream env i = Resp r -> status_code r = 429 ->
  sleep_ok env (retry_wait env (retry_after r) attempt).
Proof.
  intros [Hb Hh] Ha Hup Hst. unfold retry_wait.
  destruct (retry_after r ≫= PyStr.int) as [n|] eqn:Hn; eauto.
Qed.

Lemma fetch_attempt_returns city attempt w :
  sleeps_accepted env ->
  0 <= attempt < MAX_RETRIES (config env) ->
  exists r w', fetch_attempt env city attempt w = (Ok r, w').
Proof.
  intros Hs Ha.
  destruct (upstream env (requests_made w)) as [msg|r] eqn:Hup.
  - rewrite (fetch_attempt_netfail _ _ _ _ _ Hup); [eauto|].
    by apply Hs.
  - destruct (Z.eq_dec (status_code r) 429) as [H429|H429].
    + rewrite (fetch_attempt_429 _ _ _ _ _ Hup H429); [eauto|].
      by eapply retry_wait_accepted.
    + rewrite (fetch_attempt_other _ _ _ _ _ Hup H429). eauto.
Qed.

Lemma fetch_loop_returns city remaining attempt w :
  sleeps_accepted env ->
  0 <= attempt ->
  (remaining <> O ->
   attempt + Z.of_nat remaining <= MAX_RETRIES (config env)) ->
  exists r w', fetch_loop env city remaining attempt w = (Ok r, w').
Proof.
  intros Hs. revert attempt w.
  induction remaining as [|k IH]; intros attempt w H0 Hle.
  - simpl. unfold ret. eauto.
  - rewrite fetch_loop_step.
    destruct (fetch_attempt_returns city attempt w Hs) as (r & w1 & ->);
      [lia|].
    destruct r as [resp|u]; [eauto|].
    apply IH; lia.
Qed.

Lemma fetch_weather_from_api_returns city w :
  PyStr.truthy (default "" (API_KEY (config env))) = true ->
  sleeps_accepted env ->
  exists r w', fetch_weather_from_api env city w = (Ok r, w').
Proof.
  intros Hkey Hs. unfold fetch_weather_from_api. rewrite Hkey. simpl.
  apply fetch_loop_returns; [done|lia|]. lia.
Qed.

Lemma fetch_weather_from_api_with_key city w :
  PyStr.truthy (default "" (API_KEY (config env))) = true ->
  fetch_weather_from_api env city w
  = fetch_loop env city (Z.to_nat (MAX_RETRIES (config env))) 0 w.
Proof. intros Hkey. unfold fetch_weather_from_api. by rewrite Hkey. Qed.

Lemma fetch_weather_from_api_no_key city w :
  PyStr.truthy (default "" (API_KEY (config env))) = false ->
  fetch_weather_from_api env city w
  = (Raise (RuntimeError "API_KEY not set. Put your key in .env"), w).
Proof. intros Hkey. unfold fetch_weather_from_api. by rewrite Hkey. Qed.

End Loop.

(* ===================================================================== *)
(** ** Facts about cache records *)
(* ===================================================================== *)

Lemma entry_doc_data ts payload : Py.get (entry_doc ts payload) "data" = payload.
Proof. reflexivity. Qed.

Lemma entry_doc_timestamp ts payload dflt :
  Py.get_or (entry_doc ts payload) "timestamp" dflt = JNum ts.
Proof. reflexivity. Qed.

Lemma entry_doc_fresh ts payload :
  cache_is_fresh (Some (entry_doc ts payload)) = true.
Proof. reflexivity. Qed.

Lemma expired_doc_data ts payload :
  Py.get (expired_doc ts payload) "data" = payload.
Proof. reflexivity. Qed.

Lemma expired_doc_timestamp ts payload dflt :
  Py.get_or (expired_doc ts payload) "timestamp" dflt = JNum ts.
Proof. reflexivity. Qed.



Lemma decode_entry env t ts payload :
  decode env t (Doc (JObj (entry_doc ts payload)))
  = if converts t ts then
      inr (if t - ts <=? CACHE_TTL (config env)
           then entry_doc ts payload else expired_doc ts payload)
    else inl OverflowError.
Proof. reflexivity. Qed.

Lemma converts_same t : converts t t = true.
Proof. unfold converts. by destruct (float_ok t). Qed.

Lemma converts_zero t : converts t 0 = true.
Proof. unfold converts. by rewrite orb_true_r. Qed.

Lemma float_ok_converts t z : float_ok z = true -> converts t z = true.
Proof. intros Hz. unfold converts. by rewrite Hz, orb_true_r. Qed.

(* ===================================================================== *)
(** ** The handler, branch by branch *)
(* ===================================================================== *)

Section Engine.

Variable env : Env.

Lemma strip_only_whitespace s :
  only_whitespace s = true -> PyStr.strip s = "".
Proof.
  unfold PyStr.strip. induction s as [|c s IH]; simpl; [done|].
  intros [Hc Hs]%andb_prop. rewrite Hc. auto.
Qed.

(** The cache hit of step 1. *)
Lemma resolve_fresh city w cache w1 :
  read_cache env city w = (Ok cache, w1) ->
  cache_is_fresh cache = true ->
  resolve env city w
  = (Ok (Render (Py.get (default ∅ cache) "data") city "cache"
           (Py.get_or (default ∅ cache) "timestamp" (JNum (now w1))) None),
     record [EvLogInfo city 200 "Cache" "served from cache"] w1).
Proof.
  intros Hr Hf. unfold resolve, bind. rewrite Hr, Hf. reflexivity.
Qed.

(** Step 2 when the provider's answer reaches the dispatch. *)
Lemma resolve_response city w cache w1 resp w2 :
  read_cache env city w = (Ok cache, w1) ->
  cache_is_fresh cache = false ->
  fetch_weather_from_api env city w1 = (Ok (Some resp), w2) ->
  resolve env city w = dispatch env city cache resp w2.
Proof.
  intros Hr Hf Hfetch. unfold resolve, bind. rewrite Hr, Hf, Hfetch.
  reflexivity.
Qed.


(** An exception of [fetch_weather_from_api] leaves the handler as it is. *)
Lemma resolve_fetch_raises city w cache w1 e w2 :
  read_cache env city w = (Ok cache, w1) ->
  cache_is_fresh cache = false ->
  fetch_weather_from_api env city w1 = (Raise e, w2) ->
  resolve env city w = (Raise e, w2).
Proof.
  intros Hr Hf Hfetch. unfold resolve, bind. rewrite Hr, Hf, Hfetch.
  reflexivity.
Qed.

(** [write_cache] never raises. *)
Lemma write_cache_returns city payload w :
  exists w', write_cache env city payload w = (Ok tt, w').
Proof.
  destruct (writable env (cache_path env city)) eqn:Hw.
  - rewrite write_cache_writable by done. eauto.
  - rewrite write_cache_refused by done. eauto.
Qed.

(** [dispatch] never raises. *)
Lemma dispatch_returns city cache resp w :
  exists r w', dispatch env city cache resp w = (Ok r, w').
Proof.
  unfold dispatch.
  destruct (status_code resp =? 200).
  { unfold try_except, bind, resp_json.
    destruct (body resp) as [j|]; simpl; [|eauto].
    destruct (write_cache_returns city j w) as (w1 & ->). simpl. eauto. }
  repeat match goal with
         | |- context [if ?b then _ else _] => destruct b
         end; unfold bind; simpl; eauto.
Qed.





(** A record on disk within its time to live is read back as it is. *)
Lemma read_cache_fresh city w ts payload :
  fs w !! cache_path env city = Some (Doc (JObj (entry_doc ts payload))) ->
  converts (now w) ts = true ->
  now w - ts <= CACHE_TTL (config env) ->
  read_cache env city w
  = (Ok (Some (entry_doc ts payload)), record (read_events env city) w).
Proof.
  intros Hf Hconv Hyoung.
  rewrite (read_cache_present _ _ _ _ Hf), decode_entry, Hconv.
  destruct (Z.leb_spec (now w - ts) (CACHE_TTL (config env))); [|lia].
  reflexivity.
Qed.

End Engine.

(* ===================================================================== *)
(** ** CacheStore *)
(* ===================================================================== *)

Lemma decode_load_fails env t f e :
  load_fails t f e -> decode env t f = inl e.
Proof.
  intros [| |j Hj|d Hd|d z Hts Hconv]; simpl; try reflexivity.
  - by destruct j.
  - by destruct (Py.get_or d "timestamp" (JNum 0)).
  - by rewrite Hts, Hconv.
Qed.

(** These are all the ways: a file that does not fail to load is decoded. *)
Lemma load_fails_decode env t f e :
  decode env t f = inl e -> load_fails t f e.
Proof.
  destruct f as [| |j]; simpl.
  - intros [= <-]. constructor.
  - intros [= <-]. constructor.
  - destruct j; try (intros [= <-]; by constructor).
    destruct (Py.get_or m "timestamp" (JNum 0)) as [| |z| | |] eqn:Hts;
      try (intros [=]; fail);
      try (intros [= <-]; apply fails_timestamp; by rewrite Hts).
    destruct (converts t z) eqn:Hconv; [intros [=]|].
    intros [= <-]. by apply (fails_overflow t m z).
Qed.

(** Once [p.exists()] has found the file, a failure to load it - the file
    cannot be opened or read, its text is not JSON, the document is not an
    object with a timestamp that can be subtracted - is caught and logged,
    and [read_cache] returns [None]. *)
Lemma read_cache_fails_open env city w f e :
  fs w !! cache_path env city = Some f ->
  load_fails (now w) f e ->
  read_cache env city w
  = (Ok None,
     record (read_events env city
             ++ [EvLogError ("Failed reading cache for " ++ city) e]) w).
Proof.
  intros Hf Hfail.
  by rewrite (read_cache_present _ _ _ _ Hf), (decode_load_fails _ _ _ _ Hfail).
Qed.

(** C8 on the code.  For a city name of 300 letters the cache file would
    have a name of 338 bytes: [p.exists()], which [read_cache] calls before
    its [try], fails with [OSError] (the name is too long), and the
    exception leaves [read_cache] instead of [None] being returned. *)
Theorem read_cache_raises_on_long_name :
  read_cache (demo_env (Some "secret") (always (NetFail "down")))
    long_city empty_world
  = (Raise OSError,
     record [EvSlugify long_city;
             EvExists (cache_path
                         (demo_env (Some "secret") (always (NetFail "down")))
                         long_city)]
       empty_world).
Proof. vm_compute. reflexivity. Qed.

(** C9.  A [write_cache] that can open its file, followed at once by a
    [read_cache] of the same city with a time to live that is not negative,
    returns the record just written, unmarked: the handler takes it for a
    fresh entry, and its payload is the payload written. *)
Theorem write_then_read_fresh env city payload w :
  writable env (cache_path env city) = true ->
  0 <= CACHE_TTL (config env) ->
  exists w1 w2,
    write_cache env city payload w = (Ok tt, w1)
    /\ read_cache env city w1 = (Ok (Some (entry_doc (now w) payload)), w2)
    /\ cache_is_fresh (Some (entry_doc (now w) payload)) = true
    /\ Py.get (entry_doc (now w) payload) "data" = payload.
Proof.
  intros Hw Httl. rewrite write_cache_writable by done.
  eexists _, _. split; [reflexivity|]. split; [|done].
  apply read_cache_fresh.
  - simpl. apply lookup_insert_eq.
  - apply converts_same.
  - simpl. lia.
Qed.

Lemma write_then_read_fresh_witness :
  exists w1 w2,
    write_cache (demo_env (Some "secret") (always (NetFail "down"))) "Paris"
      demo_payload empty_world = (Ok tt, w1)
    /\ read_cache (demo_env (Some "secret") (always (NetFail "down"))) "Paris" w1
       = (Ok (Some (entry_doc (now empty_world) demo_payload)), w2)
    /\ cache_is_fresh (Some (entry_doc (now empty_world) demo_payload)) = true
    /\ Py.get (entry_doc (now empty_world) demo_payload) "data" = demo_payload.
Proof.
  apply (write_then_read_fresh
           (demo_env (Some "secret") (always (NetFail "down")))
           "Paris" demo_payload empty_world).
  - reflexivity.
  - simpl. lia.
Defined.

(* ===================================================================== *)
(** ** UpstreamClient *)
(* ===================================================================== *)

(** C4.  With [MAX_RETRIES = 3], an API key, and a provider whose next three
    requests all fail at the transport level, [fetch_weather_from_api]
    issues exactly three requests, logs each failure, sleeps
    [BACKOFF_BASE * 2 ^ attempt] after attempt 0, 1 and 2, and returns
    [None].  The back-off durations are assumed to be ones [time.sleep]
    accepts. *)
Theorem three_network_failures_unreachable env city w (msg : nat -> string) :
  MAX_RETRIES (config env) = 3 ->
  PyStr.truthy (default "" (API_KEY (config env))) = true ->
  (forall i, (i < 3)%nat ->
     upstream env (requests_made w + i)%nat = NetFail (msg i)) ->
  0 <= BACKOFF_BASE (config env) ->
  BACKOFF_BASE (config env) * 4 <= sleep_limit env ->
  exists w',
    fetch_weather_from_api env city w = (Ok None, w')
    /\ requests_made w' = (requests_made w + 3)%nat
    /\ fs w' = fs w
    /\ now w' = now w + 7 * BACKOFF_BASE (config env)
    /\ trace w'
       = (trace w
          ++ [EvGet (API_URL (config env)) (request_params env city);
              note_netfail city (msg 0%nat);
              EvSleep (BACKOFF_BASE (config env) * 2 ^ 0);
              EvGet (API_URL (config env)) (request_params env city);
              note_netfail city (msg 1%nat);
              EvSleep (BACKOFF_BASE (config env) * 2 ^ 1);
              EvGet (API_URL (config env)) (request_params env city);
              note_netfail city (msg 2%nat);
              EvSleep (BACKOFF_BASE (config env) * 2 ^ 2)])%list.
Proof.
  intros Hmax Hkey Hup Hb0 Hb4.
  assert (Hs : forall a, 0 <= a <= 2 -> sleep_ok env (backoff env a)).
  { intros a Ha. unfold sleep_ok, backoff.
    assert (a = 0 \/ a = 1 \/ a = 2) as [-> | [-> | ->]] by lia; simpl; lia. }
  rewrite fetch_weather_from_api_with_key, Hmax by done.
  change (Z.to_nat 3) with 3%nat.
  rewrite fetch_loop_step.
  rewrite (fetch_attempt_netfail env city 0 w (msg 0%nat));
    [|rewrite <- (Hup 0%nat) by lia; f_equal; lia | apply Hs; lia].
  rewrite fetch_loop_step.
  rewrite (fetch_attempt_netfail env city (0 + 1) _ (msg 1%nat));
    [|rewrite <- (Hup 1%nat) by lia; simpl; f_equal; lia | apply Hs; lia].
  rewrite fetch_loop_step.
  rewrite (fetch_attempt_netfail env city (0 + 1 + 1) _ (msg 2%nat));
    [|rewrite <- (Hup 2%nat) by lia; simpl; f_equal; lia | apply Hs; lia].
  eexists. split; [reflexivity|].
  unfold backoff; simpl.
  repeat split; try lia.
  by rewrite <- !app_assoc.
Qed.

Lemma three_network_failures_unreachable_witness :
  exists w',
    fetch_weather_from_api
      (demo_env (Some "secret") (always (NetFail "timed out"))) "Paris"
      empty_world = (Ok None, w')
    /\ requests_made w' = 3%nat
    /\ now w' = 1700000007
    /\ trace w'
       = (let get := EvGet (Some "https://api.openweathermap.org/data/2.5/weather")
                       [("q", Some "Paris"); ("appid", Some "secret");
                        ("units", Some "metric"); ("lang", Some "en")] in
          let note := EvLogInfo "Paris" 0 "API" "RequestException: timed out" in
          [get; note; EvSleep 1; get; note; EvSleep 2; get; note; EvSleep 4]).
Proof.
  destruct (three_network_failures_unreachable
              (demo_env (Some "secret") (always (NetFail "timed out")))
              "Paris" empty_world (fun _ => "timed out"))
    as (w' & Hfetch & Hreq & _ & Hnow & Htrace).
  - reflexivity.
  - reflexivity.
  - intros i _. reflexivity.
  - simpl. lia.
  - simpl. lia.
  - exists w'. split; [exact Hfetch|]. split; [exact Hreq|].
    split; [exact Hnow | exact Htrace].
Defined.

(** After a 429 whose header parses to a negative number the sleep raises
    [ValueError] - [OverflowError] below the range of [time.sleep] - which
    the handler of [requests.RequestException] does not catch: the
    exception leaves [fetch_weather_from_api]. *)
Lemma fetch_attempt_429_negative env city attempt w r s n :
  upstream env (requests_made w) = Resp r ->
  status_code r = 429 ->
  retry_after r = Some s -> PyStr.int s = Some n -> n < 0 ->
  exists w',
    fetch_attempt env city attempt w = (Raise (negative_sleep_error n), w').
Proof.
  intros Hup Hst Hhdr Hint Hneg.
  unfold fetch_attempt, try_except, requests_get, log_request.
  unfold bind at 1 2. unfold emit. simpl. rewrite Hup, Hst. simpl.
  unfold bind at 1 2. simpl. unfold bind at 1. rewrite sleep_429.
  unfold retry_wait. rewrite Hhdr. simpl. rewrite Hint.
  rewrite time_sleep_negative by done.
  unfold negative_sleep_error. destruct (n <? - SLEEP_T_MAX); simpl; eauto.
Qed.

(** C5, as the specification words it, fails: a [Retry-After] of 0 is slept
    as it is (no time at all), where the specification asks for the
    back-off of one second. *)
Lemma retry_after_zero_not_backoff :
  ~ sleeps_hint_only_if_positive
      (demo_env (Some "secret") (always (answer 429 (Some "0") None))).
Proof.
  intros Hclaim.
  specialize (Hclaim "Paris" 0 empty_world
                {| status_code := 429; retry_after := Some "0"; body := None |}
                eq_refl eq_refl).
  vm_compute in Hclaim. discriminate Hclaim.
Qed.

(** C5, amended.  On a 429 response the loop sleeps [retry_wait]: the value
    of the [Retry-After] header whenever the header is there and [int]
    parses it (zero included), and [BACKOFF_BASE * 2 ^ attempt] when the
    header is missing, empty or not an integer.  Provided [time.sleep]
    accepts that duration, the loop then goes on with [attempt + 1]. *)
Theorem retry_after_429_sleep env city remaining attempt w r :
  upstream env (requests_made w) = Resp r ->
  status_code r = 429 ->
  sleep_ok env (retry_wait env (retry_after r) attempt) ->
  fetch_loop env city (S remaining) attempt w
  = fetch_loop env city remaining (attempt + 1)
      (after_attempt env city (note_429 city (retry_after r))
         (retry_wait env (retry_after r) attempt) w)
  /\ (forall s n, retry_after r = Some s -> PyStr.int s = Some n ->
        retry_wait env (retry_after r) attempt = n)
  /\ (retry_after r = None \/ retry_after r = Some ""
      \/ (exists s, retry_after r = Some s /\ PyStr.int s = None) ->
        retry_wait env (retry_after r) attempt
        = BACKOFF_BASE (config env) * 2 ^ attempt).
Proof.
  intros Hup Hst Hs. split; [|split].
  - rewrite fetch_loop_step.
    by rewrite (fetch_attempt_429 env city attempt w r).
  - intros s n Hhdr Hint. unfold retry_wait. rewrite Hhdr. simpl.
    by rewrite Hint.
  - unfold retry_wait.
    intros [-> | [-> | (s & -> & Hint)]]; simpl; try reflexivity.
    by rewrite Hint.
Qed.

Lemma retry_after_429_sleep_witness :
  fetch_loop (demo_env (Some "secret") (always (answer 429 (Some "7") None)))
    "Paris" 3 0 empty_world
  = fetch_loop (demo_env (Some "secret") (always (answer 429 (Some "7") None)))
      "Paris" 2 1
      (after_attempt
         (demo_env (Some "secret") (always (answer 429 (Some "7") None)))
         "Paris" (note_429 "Paris" (Some "7")) 7 empty_world).
Proof.
  apply (retry_after_429_sleep
           (demo_env (Some "secret") (always (answer 429 (Some "7") None)))
           "Paris" 2 0 empty_world
           {| status_code := 429; retry_after := Some "7"; body := None |}).
  - reflexivity.
  - reflexivity.
  - vm_compute. split; discriminate.
Defined.

(* ===================================================================== *)
(** ** FetchOrchestrator *)
(* ===================================================================== *)

(** When [read_cache] hands back a dictionary, it has found and loaded the
    file, and has done nothing else. *)
Lemma read_cache_some env city w d w1 :
  read_cache env city w = (Ok (Some d), w1) ->
  w1 = record (read_events env city) w.
Proof.
  destruct (fs w !! cache_path env city) as [f|] eqn:Hf.
  - rewrite (read_cache_present _ _ _ _ Hf).
    destruct (decode env (now w) f); by intros [= <-].
  - destruct (stat_fails env (cache_path env city)) eqn:Hstat.
    + rewrite (read_cache_stat_fails _ _ _ Hf Hstat). intros [=].
    + rewrite (read_cache_absent _ _ _ Hf Hstat). intros [=].
Qed.

(** C3.  When [read_cache] returns a record as it was written (not marked
    as expired), [resolve] renders the record's payload and timestamp with
    source ["cache"].  The world afterwards is the initial one with four
    events appended - the look-up of the file and the log line - none of
    which is an HTTP request: the count of requests is unchanged. *)
Theorem fresh_cache_short_circuits env city w ts payload w1 :
  read_cache env city w = (Ok (Some (entry_doc ts payload)), w1) ->
  exists w',
    resolve env city w
    = (Ok (Render payload city "cache" (JNum ts) None), w')
    /\ w' = record (read_events env city
                    ++ [EvLogInfo city 200 "Cache" "served from cache"]) w
    /\ requests_made w' = requests_made w.
Proof.
  intros Hread. pose proof (read_cache_some _ _ _ _ _ Hread) as ->.
  rewrite (resolve_fresh _ _ _ _ _ Hread (entry_doc_fresh ts payload)).
  eexists. split; [reflexivity|]. split; [|reflexivity].
  by rewrite record_record.
Qed.

Lemma fresh_cache_short_circuits_witness :
  exists w',
    resolve (demo_env (Some "secret") (always (NetFail "down"))) "Paris"
      fresh_paris
    = (Ok (Render demo_payload "Paris" "cache" (JNum 1699999000) None), w')
    /\ w' = record (read_events
                      (demo_env (Some "secret") (always (NetFail "down")))
                      "Paris"
                    ++ [EvLogInfo "Paris" 200 "Cache" "served from cache"])
              fresh_paris
    /\ requests_made w' = requests_made fresh_paris.
Proof.
  apply (fresh_cache_short_circuits
           (demo_env (Some "secret") (always (NetFail "down")))
           "Paris" fresh_paris 1699999000 demo_payload
           (record (read_events
                      (demo_env (Some "secret") (always (NetFail "down")))
                      "Paris") fresh_paris)).
  vm_compute. reflexivity.
Defined.





(** What the handler's branch for 429 would do with a cache entry at hand,
    were it ever given such a response. *)
Lemma dispatch_429_cached env city cache resp w :
  status_code resp = 429 ->
  Py.truthy_cache cache = true ->
  dispatch env city cache resp w
  = (Ok (Render (Py.get (default ∅ cache) "data") city "cache_rate_limited"
           (Py.get_or (default ∅ cache) "timestamp" (JNum (now w)))
           (Some msg_rate_limited_cached)),
     record [EvLogInfo city 429 "API" "rate limited"] w).
Proof.
  intros Hst Ht. unfold dispatch. rewrite Hst. simpl.
  unfold bind. simpl. rewrite Ht. reflexivity.
Qed.

(** The dispatch renders ["cache_rate_limited"] for a 429 only. *)
Lemma dispatch_rate_limited_only_429 env city cache resp w data c ts warn w' :
  dispatch env city cache resp w
  = (Ok (Render data c "cache_rate_limited" ts warn), w') ->
  status_code resp = 429.
Proof.
  unfold dispatch.
  destruct (status_code resp =? 200).
  { unfold try_except, bind, resp_json.
    destruct (body resp) as [j|]; simpl; [|intros [=]].
    destruct (write_cache_returns env city j w) as (w1 & ->). simpl.
    intros [=]. }
  destruct (status_code resp =? 401); [unfold bind; simpl; intros [=]|].
  destruct (status_code resp =? 404); [unfold bind; simpl; intros [=]|].
  destruct (Z.eqb_spec (status_code resp) 429); [done|].
  destruct (_ && _); unfold bind; simpl; [|intros [=]].
  destruct (Py.truthy_cache cache); simpl; intros [=].
Qed.

(** No run of [resolve] ends in the ["cache_rate_limited"] rendering: the
    branch of the handler that produces it needs a 429 response, and
    [fetch_weather_from_api] never returns one. *)
Lemma resolve_never_cache_rate_limited env city w data c ts warn w' :
  resolve env city w <> (Ok (Render data c "cache_rate_limited" ts warn), w').
Proof.
  destruct (read_cache_world env city w) as ([cache|e0] & evs & Hread);
    unfold resolve, bind; rewrite Hread; [|intros [=]].
  destruct (cache_is_fresh cache); [simpl; intros [=]|].
  destruct (fetch_weather_from_api env city (record evs w))
    as [[[resp|]|e] w2] eqn:Hfetch; [| |intros [=]].
  - intros Hd%dispatch_rate_limited_only_429.
    by apply fetch_weather_from_api_not_429 in Hfetch.
  - destruct (Py.truthy_cache cache); simpl; intros [=].
Qed.

(** C2 on the code.  Paris has a stale record in the cache and the provider
    answers 429 to every request: after three requests the handler renders
    the stale payload with source ["cache_expired"] and the warning that
    the API is unreachable, not with source ["cache_rate_limited"]. *)
Theorem rate_limited_stale_served_as_expired :
  exists w',
    weather (demo_env (Some "secret") (always (answer 429 None None)))
      (Some "Paris") stale_paris
    = (Ok (Render demo_payload "Paris" "cache_expired" (JNum 1600000000)
             (Some "API is unreachable; showing the latest cached data.")),
       w')
    /\ requests_made w' = 3%nat.
Proof. eexists. split; vm_compute; reflexivity. Qed.

(** C1, as the specification words it, fails: without an API key and
    without a fresh cache entry, [resolve] raises [RuntimeError]. *)
Lemma resolve_raises_without_api_key : ~ resolve_never_raises.
Proof.
  intros Hclaim.
  destruct (Hclaim (demo_env None (always (answer 200 None (Some demo_payload))))
              "Paris" empty_world) as (r & w' & Hres).
  vm_compute in Hres. discriminate Hres.
Qed.

(** The exception of the missing key, in general. *)
Lemma resolve_no_key_raises env city w cache w1 :
  PyStr.truthy (default "" (API_KEY (config env))) = false ->
  read_cache env city w = (Ok cache, w1) ->
  cache_is_fresh cache = false ->
  resolve env city w
  = (Raise (RuntimeError "API_KEY not set. Put your key in .env"), w1).
Proof.
  intros Hkey Hread Hfresh.
  apply (resolve_fetch_raises env _ _ _ _ _ _ Hread Hfresh).
  by apply fetch_weather_from_api_no_key.
Qed.

(** C1, amended.  With an API key configured, for a city whose cache path
    can be looked up (its file name is not too long, the cache directory
    can be searched), and when every duration the retry loop may have to
    sleep is one [time.sleep] accepts, [resolve] returns a reply for every
    state of the cache and of the provider: no exception reaches its
    caller. *)
Theorem resolve_returns_with_api_key env city w :
  PyStr.truthy (default "" (API_KEY (config env))) = true ->
  stat_fails env (cache_path env city) = false ->
  sleeps_accepted env ->
  exists r w', resolve env city w = (Ok r, w').
Proof.
  intros Hkey Hstat Hs.
  destruct (read_cache_total env city w Hstat) as (cache & evs & Hread).
  destruct (cache_is_fresh cache) eqn:Hfresh.
  { rewrite (resolve_fresh env _ _ _ _ Hread Hfresh). eauto. }
  destruct (fetch_weather_from_api_returns env city (record evs w) Hkey Hs)
    as ([resp|] & w2 & Hfetch).
  - rewrite (resolve_response env _ _ _ _ _ _ Hread Hfresh Hfetch).
    apply dispatch_returns.
  - unfold resolve, bind. rewrite Hread, Hfresh, Hfetch.
    destruct (Py.truthy_cache cache); simpl; eauto.
Qed.

Lemma resolve_returns_with_api_key_witness :
  exists r w',
    resolve (demo_env (Some "secret") (always (answer 429 (Some "5") None)))
      "Paris" stale_paris = (Ok r, w').
Proof.
  apply (resolve_returns_with_api_key
           (demo_env (Some "secret") (always (answer 429 (Some "5") None)))
           "Paris" stale_paris).
  - reflexivity.
  - vm_compute. reflexivity.
  - split.
    + intros attempt Ha. simpl in Ha. unfold sleep_ok, backoff. simpl.
      assert (attempt = 0 \/ attempt = 1 \/ attempt = 2) as [-> | [-> | ->]]
        by lia; simpl; lia.
    + intros i r n Hup _ Hn. injection Hup as <-. vm_compute in Hn.
      injection Hn as <-. unfold sleep_ok. simpl. lia.
Defined.

(** C10.  A request whose [city] field is missing, empty or white space
    only is answered by the warning redirect, and the world is left exactly
    as it was: no file of the cache is looked up or read, no HTTP request
    is made, and [slugify] is not called - although [slugify] does accept
    the empty text, for which it returns the bare digest. *)
Theorem blank_city_rejected env form_city w :
  only_whitespace (default "" form_city) = true ->
  weather env form_city w
  = (Ok (Redirect "Please enter a city name." "warning"), w)
  /\ slugify "" = "_d41d8cd98f00b204e9800998ecf8427e".
Proof.
  intros Hblank. split; [|vm_compute; reflexivity].
  unfold weather. by rewrite (strip_only_whitespace _ Hblank).
Qed.

Lemma blank_city_rejected_witness :
  weather (demo_env (Some "secret") (always (NetFail "down")))
    (Some "   ") fresh_paris
  = (Ok (Redirect "Please enter a city name." "warning"), fresh_paris)
  /\ slugify "" = "_d41d8cd98f00b204e9800998ecf8427e".
Proof.
  apply (blank_city_rejected
           (demo_env (Some "secret") (always (NetFail "down")))
           (Some "   ") fresh_paris).
  reflexivity.
Defined.

(* ===================================================================== *)
(** ** The calls of [slugify] *)
(* ===================================================================== *)

Create HintDb events.

Section Events.

Variable P : event -> Prop.

Lemma emits_ret {A} (a : A) : emits_only P (ret a).
Proof. intros w. exists []. simpl. by rewrite app_nil_r. Qed.

Lemma emits_raise {A} (e : exn) : emits_only P (@raise A e).
Proof. intros w. exists []. simpl. by rewrite app_nil_r. Qed.

Lemma emits_emit ev : P ev -> emits_only P (emit ev).
Proof. intros Hev w. exists [ev]. simpl. auto. Qed.

Lemma emits_bind {A B} (c : M A) (k : A -> M B) :
  emits_only P c -> (forall a, emits_only P (k a)) -> emits_only P (bind c k).
Proof.
  intros Hc Hk w. unfold bind. destruct (Hc w) as (evs1 & Ht1 & HP1).
  destruct (c w) as [[a|e] w1]; simpl in *; [|eauto].
  destruct (Hk a w1) as (evs2 & Ht2 & HP2).
  exists (evs1 ++ evs2)%list. rewrite Ht2, Ht1, app_assoc.
  split; [done|]. by apply Forall_app.
Qed.

Lemma emits_try {A} (body : M A) cls (handler : exn -> M A) :
  emits_only P body -> (forall e, emits_only P (handler e)) ->
  emits_only P (try_except body cls handler).
Proof.
  intros Hb Hh w. unfold try_except. destruct (Hb w) as (evs1 & Ht1 & HP1).
  destruct (body w) as [[a|e] w1]; simpl in *; [eauto|].
  destruct (isinstance e cls); simpl; [|eauto].
  destruct (Hh e w1) as (evs2 & Ht2 & HP2).
  exists (evs1 ++ evs2)%list. rewrite Ht2, Ht1, app_assoc.
  split; [done|]. by apply Forall_app.
Qed.

Lemma emits_if {A} (b : bool) (c1 c2 : M A) :
  emits_only P c1 -> emits_only P c2 -> emits_only P (if b then c1 else c2).
Proof. by destruct b. Qed.

Lemma emits_time_time : emits_only P time_time.
Proof. intros w. exists []. simpl. by rewrite app_nil_r. Qed.

Lemma emits_time_sleep env secs :
  P (EvSleep secs) -> emits_only P (time_sleep env secs).
Proof.
  intros Hev w. unfold time_sleep.
  destruct (secs <? - SLEEP_T_MAX); [apply emits_raise|].
  destruct (secs <? 0); [apply emits_raise|].
  destruct (secs <=? sleep_limit env);
    [|destruct (SLEEP_T_MAX <? secs); apply emits_raise].
  exists [EvSleep secs]. simpl. auto.
Qed.

Lemma emits_py_int s : emits_only P (py_int s).
Proof.
  unfold py_int. destruct (PyStr.int s); [apply emits_ret | apply emits_raise].
Qed.

Lemma emits_requests_get env params :
  P (EvGet (API_URL (config env)) params) ->
  emits_only P (requests_get env params).
Proof.
  intros Hev w. exists [EvGet (API_URL (config env)) params].
  unfold requests_get, bind, emit. simpl.
  destruct (upstream env (requests_made w)); simpl; auto.
Qed.

Lemma emits_path_exists env p :
  P (EvExists p) -> emits_only P (path_exists env p).
Proof.
  intros Hev w. exists [EvExists p]. unfold path_exists, bind, emit. simpl.
  destruct (fs w !! p); [|destruct (stat_fails env p)]; simpl; auto.
Qed.

Lemma emits_json_load p : P (EvOpenRead p) -> emits_only P (json_load p).
Proof.
  intros Hev w. exists [EvOpenRead p]. unfold json_load, bind, emit. simpl.
  destruct (fs w !! p) as [[| |j]|]; simpl; auto.
Qed.

Lemma emits_json_dump env p doc :
  P (EvOpenWrite p) -> emits_only P (json_dump env p doc).
Proof.
  intros Hev w. exists [EvOpenWrite p]. unfold json_dump, bind, emit. simpl.
  destruct (writable env p); simpl; auto.
Qed.

Lemma emits_as_dict data : emits_only P (as_dict data).
Proof. destruct data; simpl; (apply emits_ret || apply emits_raise). Qed.

Lemma emits_py_sub t ts : emits_only P (py_sub t ts).
Proof.
  destruct ts; simpl; try (apply emits_ret || apply emits_raise).
  destruct (converts t z); (apply emits_ret || apply emits_raise).
Qed.

Lemma emits_resp_json resp : emits_only P (resp_json resp).
Proof.
  unfold resp_json. destruct (body resp); [apply emits_ret | apply emits_raise].
Qed.

End Events.

#[local] Hint Resolve emits_ret emits_raise emits_time_time emits_py_int
  emits_as_dict emits_py_sub emits_resp_json : events.
#[local] Hint Extern 1 (emits_only _ (emit _)) =>
  apply emits_emit; exact I : events.
#[local] Hint Extern 1 (emits_only _ (log_request _ _ _ _)) =>
  apply emits_emit; exact I : events.
#[local] Hint Extern 1 (emits_only _ (logging_error _ _)) =>
  apply emits_emit; exact I : events.
#[local] Hint Extern 1 (emits_only _ (time_sleep _ _)) =>
  apply emits_time_sleep; exact I : events.
#[local] Hint Extern 1 (emits_only _ (requests_get _ _)) =>
  apply emits_requests_get; exact I : events.
#[local] Hint Extern 1 (emits_only _ (path_exists _ _)) =>
  apply emits_path_exists; exact I : events.
#[local] Hint Extern 1 (emits_only _ (json_load _)) =>
  apply emits_json_load; exact I : events.
#[local] Hint Extern 1 (emits_only _ (json_dump _ _ _)) =>
  apply emits_json_dump; exact I : events.
#[local] Hint Extern 2 (emits_only _ (bind _ _)) =>
  apply emits_bind; [|intros ?] : events.
#[local] Hint Extern 2 (emits_only _ (try_except _ _ _)) =>
  apply emits_try; [|intros ?] : events.
#[local] Hint Extern 2 (emits_only _ (if _ then _ else _)) =>
  apply emits_if : events.
#[local] Hint Extern 3 (emits_only _ (match ?x with _ => _ end)) =>
  destruct x : events.

Section SlugifyCalls.

Variable env : Env.
Variable city : string.

Lemma emits_cache_path_for :
  emits_only (slugify_on city) (cache_path_for env city).
Proof.
  unfold cache_path_for. apply emits_bind; [|auto with events].
  by apply emits_emit.
Qed.

Lemma emits_read_cache : emits_only (slugify_on city) (read_cache env city).
Proof.
  unfold read_cache. pose proof emits_cache_path_for. auto 15 with events.
Qed.

Lemma emits_write_cache payload :
  emits_only (slugify_on city) (write_cache env city payload).
Proof.
  unfold write_cache. pose proof emits_cache_path_for. auto 15 with events.
Qed.

Lemma emits_fetch_attempt attempt :
  emits_only (slugify_on city) (fetch_attempt env city attempt).
Proof. unfold fetch_attempt, sleep_after_429. auto 20 with events. Qed.

Lemma emits_fetch_loop remaining attempt :
  emits_only (slugify_on city) (fetch_loop env city remaining attempt).
Proof.
  revert attempt. induction remaining as [|k IH]; intros attempt; simpl.
  - auto with events.
  - apply emits_bind; [apply emits_fetch_attempt|].
    intros [r|[]]; auto with events.
Qed.

Lemma emits_fetch_weather_from_api :
  emits_only (slugify_on city) (fetch_weather_from_api env city).
Proof.
  unfold fetch_weather_from_api.
  apply emits_if; [auto with events | apply emits_fetch_loop].
Qed.

Lemma emits_dispatch cache resp :
  emits_only (slugify_on city) (dispatch env city cache resp).
Proof.
  unfold dispatch. pose proof emits_write_cache. auto 20 with events.
Qed.

Lemma emits_resolve : emits_only (slugify_on city) (resolve env city).
Proof.
  unfold resolve.
  apply emits_bind; [apply emits_read_cache|]. intros cache.
  apply emits_if; [auto 10 with events|].
  apply emits_bind; [apply emits_fetch_weather_from_api|].
  intros [resp|]; [apply emits_dispatch | auto 10 with events].
Qed.

End SlugifyCalls.

(** Whatever the request, every call of [slugify] that the handler makes is
    on the stripped city name, which is not empty. *)
Lemma slugify_never_called_on_empty env form_city w :
  exists evs,
    trace (weather env form_city w).2 = (trace w ++ evs)%list
    /\ forall text, In (EvSlugify text) evs -> text <> "".
Proof.
  unfold weather.
  destruct (PyStr.truthy (PyStr.strip (default "" form_city))) eqn:Hcity; simpl.
  - destruct (emits_resolve env (PyStr.strip (default "" form_city)) w)
      as (evs & Htrace & Hevs).
    exists evs. split; [done|]. intros text Hin.
    rewrite Forall_forall in Hevs. apply list_elem_of_In, Hevs in Hin.
    simpl in Hin. subst text. by destruct (PyStr.strip _).
  - exists []. split; [by rewrite app_nil_r|]. intros text [].
Qed.

(* ===================================================================== *)
(** ** Further properties: the key codec *)
(* ===================================================================== *)

Section Strip.

Variable sp : ascii -> bool.

Lemma lstrip_of_only s : all_chars sp s = true -> PyStr.lstrip_of sp s = "".
Proof.
  induction s as [|c s IH]; simpl; [done|].
  intros [Hc Hs]%andb_prop. rewrite Hc. auto.
Qed.

Lemma rstrip_of_only s : all_chars sp s = true -> PyStr.rstrip_of sp s = "".
Proof.
  induction s as [|c s IH]; simpl; [done|].
  intros [Hc Hs]%andb_prop. by rewrite IH, Hc.
Qed.

Lemma lstrip_of_app_l pre s :
  all_chars sp pre = true ->
  PyStr.lstrip_of sp (pre ++ s) = PyStr.lstrip_of sp s.
Proof.
  induction pre as [|c pre IH]; simpl; [done|].
  intros [Hc Hs]%andb_prop. rewrite Hc. auto.
Qed.

Lemma rstrip_of_app_r s post :
  all_chars sp post = true ->
  PyStr.rstrip_of sp (s ++ post) = PyStr.rstrip_of sp s.
Proof.
  intros Hpost. induction s as [|c s IH]; simpl.
  - by apply rstrip_of_only.
  - by rewrite IH.
Qed.

Lemma rstrip_lstrip_app_r s post :
  all_chars sp post = true ->
  PyStr.rstrip_of sp (PyStr.lstrip_of sp (s ++ post))
  = PyStr.rstrip_of sp (PyStr.lstrip_of sp s).
Proof.
  intros Hpost. induction s as [|c s IH].
  - simpl. by rewrite lstrip_of_only.
  - simpl PyStr.lstrip_of. destruct (sp c); [exact IH|].
    change (String c (s ++ post)) with (String c s ++ post).
    by apply rstrip_of_app_r.
Qed.

(** What [rstrip_of] leaves starts as its argument does. *)
Lemma rstrip_of_head c s :
  sp c = false ->
  exists r, PyStr.rstrip_of sp (String c s) = String c r.
Proof.
  intros Hc. simpl. destruct (PyStr.rstrip_of sp s); rewrite ?Hc; eauto.
Qed.

Lemma lstrip_of_clean s :
  PyStr.lstrip_of sp s = ""
  \/ exists c r, PyStr.lstrip_of sp s = String c r /\ sp c = false.
Proof.
  induction s as [|c s IH]; simpl; [by left|].
  destruct (sp c) eqn:Hc; [exact IH|]. right. eauto.
Qed.

Lemma rstrip_of_idem s :
  PyStr.rstrip_of sp (PyStr.rstrip_of sp s) = PyStr.rstrip_of sp s.
Proof.
  induction s as [|c s IH]; simpl; [done|].
  destruct (PyStr.rstrip_of sp s) as [|c1 r1] eqn:Hr.
  - destruct (sp c) eqn:Hc; simpl; [done|]. by rewrite Hc.
  - simpl in IH |- *. by rewrite IH.
Qed.

Lemma strip_of_idem s :
  PyStr.rstrip_of sp (PyStr.lstrip_of sp
     (PyStr.rstrip_of sp (PyStr.lstrip_of sp s)))
  = PyStr.rstrip_of sp (PyStr.lstrip_of sp s).
Proof.
  destruct (lstrip_of_clean s) as [-> | (c & r & -> & Hc)]; [done|].
  destruct (rstrip_of_head c r Hc) as (r' & Hr).
  rewrite Hr. simpl PyStr.lstrip_of. rewrite Hc, <- Hr.
  apply rstrip_of_idem.
Qed.

(** A character map that keeps white space and the rest apart commutes
    with stripping. *)
Lemma lstrip_of_map f s :
  (forall c, sp (f c) = sp c) ->
  PyStr.lstrip_of sp (PyStr.map_chars f s)
  = PyStr.map_chars f (PyStr.lstrip_of sp s).
Proof.
  intros Hf. induction s as [|c s IH]; simpl; [done|].
  rewrite Hf. by destruct (sp c).
Qed.

Lemma rstrip_of_map f s :
  (forall c, sp (f c) = sp c) ->
  PyStr.rstrip_of sp (PyStr.map_chars f s)
  = PyStr.map_chars f (PyStr.rstrip_of sp s).
Proof.
  intros Hf. induction s as [|c s IH]; simpl; [done|].
  rewrite IH, Hf.
  destruct (PyStr.rstrip_of sp s); simpl; [by destruct (sp c)|done].
Qed.

End Strip.

Lemma only_whitespace_all_chars s :
  only_whitespace s = all_chars PyStr.isspace s.
Proof. induction s as [|c s IH]; simpl; [done|]. by rewrite IH. Qed.

Lemma strip_idem s : PyStr.strip (PyStr.strip s) = PyStr.strip s.
Proof. apply strip_of_idem. Qed.

Lemma strip_padding pre s post :
  only_whitespace pre = true -> only_whitespace post = true ->
  PyStr.strip (pre ++ s ++ post) = PyStr.strip s.
Proof.
  rewrite !only_whitespace_all_chars. intros Hpre Hpost. unfold PyStr.strip.
  rewrite lstrip_of_app_l by done. by apply rstrip_lstrip_app_r.
Qed.

Lemma isspace_lower_char c : PyStr.isspace (PyStr.lower_char c) = PyStr.isspace c.
Proof.
  destruct c as [[] [] [] [] [] [] [] []]; vm_compute; reflexivity.
Qed.

Lemma lower_char_idem c :
  PyStr.lower_char (PyStr.lower_char c) = PyStr.lower_char c.
Proof.
  destruct c as [[] [] [] [] [] [] [] []]; vm_compute; reflexivity.
Qed.

Lemma lower_idem s : PyStr.lower (PyStr.lower s) = PyStr.lower s.
Proof.
  unfold PyStr.lower. induction s as [|c s IH]; simpl; [done|].
  by rewrite lower_char_idem, IH.
Qed.

Lemma strip_lower s : PyStr.strip (PyStr.lower s) = PyStr.lower (PyStr.strip s).
Proof.
  unfold PyStr.strip, PyStr.lower.
  rewrite lstrip_of_map, rstrip_of_map by apply isspace_lower_char. done.
Qed.

(** X1.  [slugify] does not see the case of its argument nor the white
    space around it: lower-casing the text and padding it with white space
    on either side gives the same slug, hence the same cache file. *)
Theorem slugify_ignores_case_and_padding env pre s post :
  only_whitespace pre = true ->
  only_whitespace post = true ->
  slugify (pre ++ PyStr.lower s ++ post) = slugify s
  /\ cache_path env (pre ++ PyStr.lower s ++ post) = cache_path env s.
Proof.
  intros Hpre Hpost.
  assert (Hslug : slugify (pre ++ PyStr.lower s ++ post) = slugify s).
  { unfold slugify. by rewrite strip_padding, strip_lower, lower_idem. }
  split; [exact Hslug|]. unfold cache_path. by rewrite Hslug.
Qed.

Lemma slugify_ignores_case_and_padding_witness :
  slugify ("  " ++ PyStr.lower "New York" ++ " ") = slugify "New York"
  /\ cache_path (demo_env None (always (NetFail "down")))
       ("  " ++ PyStr.lower "New York" ++ " ")
     = cache_path (demo_env None (always (NetFail "down"))) "New York".
Proof.
  apply (slugify_ignores_case_and_padding
           (demo_env None (always (NetFail "down"))) "  " "New York" " ");
    reflexivity.
Defined.

Lemma length_map_chars f s :
  String.length (PyStr.map_chars f s) = String.length s.
Proof. induction s as [|c s IH]; simpl; [done|]. by rewrite IH. Qed.

Lemma length_string_app (s1 s2 : string) :
  String.length (s1 ++ s2) = (String.length s1 + String.length s2)%nat.
Proof. induction s1 as [|c s1 IH]; simpl; [done|]. by rewrite IH. Qed.

Lemma all_chars_app p (s1 s2 : string) :
  all_chars p (s1 ++ s2) = all_chars p s1 && all_chars p s2.
Proof.
  induction s1 as [|c s1 IH]; simpl; [done|]. by rewrite IH, andb_assoc.
Qed.

Lemma all_chars_weaken (p q : ascii -> bool) s :
  (forall c, p c = true -> q c = true) ->
  all_chars p s = true -> all_chars q s = true.
Proof.
  intros Hpq. induction s as [|c s IH]; simpl; [done|].
  intros [Hc Hs]%andb_prop. rewrite (Hpq _ Hc). auto.
Qed.

Lemma replace_space_not_space s :
  all_chars not_space (PyStr.replace_char " " "_" s) = true.
Proof.
  unfold PyStr.replace_char. induction s as [|c s IH]; simpl; [done|].
  rewrite IH, andb_true_r. unfold not_space.
  destruct (Ascii.eqb c " ") eqn:Hc; [reflexivity|]. by rewrite Hc.
Qed.

Lemma hex_digit_is_hex n :
  0 <= n < 16 -> is_hex_digit (MD5.hex_digit n) = true.
Proof.
  intros Hn.
  assert (Hall : forallb (fun k => is_hex_digit (MD5.hex_digit (Z.of_nat k)))
                   (seq 0 16) = true) by reflexivity.
  rewrite forallb_forall in Hall.
  rewrite <- (Z2Nat.id n) by lia. apply Hall, in_seq. lia.
Qed.

Lemma length_le_bytes n x : length (MD5.le_bytes n x) = n.
Proof. unfold MD5.le_bytes. by rewrite length_map, length_seq. Qed.

Lemma le_bytes_range n x b : In b (MD5.le_bytes n x) -> 0 <= b < 256.
Proof.
  unfold MD5.le_bytes. rewrite in_map_iff. intros (i & <- & _).
  change 255 with (Z.ones 8). rewrite Z.land_ones by lia.
  apply Z.mod_pos_bound. lia.
Qed.

Lemma hex_shape bytes :
  (forall b, In b bytes -> 0 <= b < 256) ->
  String.length (MD5.hex bytes) = (2 * length bytes)%nat
  /\ all_chars is_hex_digit (MD5.hex bytes) = true.
Proof.
  induction bytes as [|b bytes IH]; intros Hrange; [done|].
  destruct IH as [IHlen IHhex]; [intros; apply Hrange; by right|].
  assert (0 <= b < 256) as Hb by (apply Hrange; by left).
  split.
  - simpl. rewrite IHlen. simpl. lia.
  - cbn [MD5.hex all_chars]. rewrite IHhex, !andb_true_r.
    rewrite !hex_digit_is_hex; [done| |].
    + change 15 with (Z.ones 4). rewrite Z.land_ones by lia.
      apply Z.mod_pos_bound. lia.
    + rewrite Z.shiftr_div_pow2 by lia. change (2 ^ 4) with 16.
      split; [apply Z.div_pos; lia | apply Z.div_lt_upper_bound; lia].
Qed.

Lemma hexdigest_shape msg :
  String.length (MD5.hexdigest msg) = 32%nat
  /\ all_chars is_hex_digit (MD5.hexdigest msg) = true.
Proof.
  unfold MD5.hexdigest, MD5.digest.
  destruct (MD5.blocks _ _ _) as [[[a b] c] d].
  destruct (hex_shape (MD5.le_bytes 4 a ++ MD5.le_bytes 4 b
                       ++ MD5.le_bytes 4 c ++ MD5.le_bytes 4 d))
    as [Hlen Hhex].
  - intros x Hx. rewrite !in_app_iff in Hx.
    destruct Hx as [Hx | [Hx | [Hx | Hx]]]; by apply le_bytes_range in Hx.
  - split; [|exact Hhex].
    rewrite Hlen, !length_app, !length_le_bytes. reflexivity.
Qed.

(** X2.  A slug is the normalised text (stripped, then lower-cased) with
    its spaces replaced, an underscore, and 32 lower-case hexadecimal
    digits: it is 33 characters longer than the normalised text, and holds
    no space. *)
Theorem slugify_shape text :
  exists h,
    slugify text
    = PyStr.replace_char " " "_" (PyStr.lower (PyStr.strip text)) ++ "_" ++ h
    /\ String.length h = 32%nat
    /\ all_chars is_hex_digit h = true
    /\ String.length (slugify text)
       = (String.length (PyStr.lower (PyStr.strip text)) + 33)%nat
    /\ all_chars not_space (slugify text) = true.
Proof.
  set (t := PyStr.lower (PyStr.strip text)).
  destruct (hexdigest_shape (PyStr.encode_utf8 t)) as [Hlen Hhex].
  exists (MD5.hexdigest (PyStr.encode_utf8 t)).
  split; [reflexivity|]. split; [exact Hlen|]. split; [exact Hhex|].
  unfold slugify. fold t. split.
  - rewrite !length_string_app, Hlen. unfold PyStr.replace_char.
    rewrite !length_map_chars. simpl. lia.
  - rewrite !all_chars_app, replace_space_not_space. simpl.
    apply (all_chars_weaken is_hex_digit); [|exact Hhex].
    intros c. destruct c as [[] [] [] [] [] [] [] []]; vm_compute; done.
Qed.

(* ===================================================================== *)
(** ** Further properties: the cache store *)
(* ===================================================================== *)

Lemma mark_expired_lookup (d : dict) k :
  k <> "expired" -> Py.mark_expired d !! k = d !! k.
Proof.
  intros Hk. unfold Py.mark_expired. destruct (d !! k) as [v|] eqn:Hd.
  - by apply lookup_union_Some_l.
  - rewrite lookup_union_r by done. by apply lookup_singleton_ne.
Qed.

Lemma mark_expired_keeps (d : dict) v :
  d !! "expired" = Some v -> Py.mark_expired d !! "expired" = Some v.
Proof. intros Hd. unfold Py.mark_expired. by apply lookup_union_Some_l. Qed.

Lemma truthy_dict_lookup (d : dict) k v :
  d !! k = Some v -> Py.truthy (JObj d) = true.
Proof.
  intros Hd. simpl. destruct (size d) eqn:Hsize; [|done].
  apply map_size_empty_iff in Hsize. subst d. by rewrite lookup_empty in Hd.
Qed.

Lemma read_cache_frame env city w r w' :
  read_cache env city w = (r, w') ->
  fs w' = fs w /\ now w' = now w /\ requests_made w' = requests_made w.
Proof.
  destruct (read_cache_world env city w) as (r0 & evs & ->).
  by intros [= <- <-].
Qed.



(** X4.  Once [p.exists()] goes through - the path can be looked up, its
    file name is not too long - [read_cache] returns whatever the file
    holds: no exception leaves its [try].  It changes neither the cache
    files, nor the clock, nor the count of HTTP requests. *)
Theorem read_cache_returns_after_exists env city w :
  stat_fails env (cache_path env city) = false ->
  exists cache w',
    read_cache env city w = (Ok cache, w')
    /\ fs w' = fs w /\ now w' = now w
    /\ requests_made w' = requests_made w.
Proof.
  intros Hstat.
  destruct (read_cache_total env city w Hstat) as (cache & evs & ->).
  by exists cache, (record evs w).
Qed.

Lemma read_cache_returns_after_exists_witness :
  exists cache w',
    read_cache (demo_env None (always (NetFail "down"))) "Paris"
      (paris_world Garbage) = (Ok cache, w')
    /\ fs w' = fs (paris_world Garbage) /\ now w' = now (paris_world Garbage)
    /\ requests_made w' = requests_made (paris_world Garbage).
Proof.
  apply (read_cache_returns_after_exists
           (demo_env None (always (NetFail "down"))) "Paris"
           (paris_world Garbage)).
  vm_compute. reflexivity.
Defined.

(** X5.  A cached object without a ["timestamp"] is aged from the epoch:
    once the clock is past [CACHE_TTL] it is always handed back marked as
    expired, with its other items kept. *)
Theorem read_cache_missing_timestamp env city w (d : dict) :
  fs w !! cache_path env city = Some (Doc (JObj d)) ->
  d !! "timestamp" = None ->
  CACHE_TTL (config env) < now w ->
  exists w',
    read_cache env city w = (Ok (Some (Py.mark_expired d)), w')
    /\ forall k, k <> "expired" -> Py.mark_expired d !! k = d !! k.
Proof.
  intros Hf Hts Hold. rewrite (read_cache_present _ _ _ _ Hf). simpl.
  unfold Py.get_or. rewrite Hts. simpl. rewrite converts_zero.
  destruct (Z.leb_spec (now w - 0) (CACHE_TTL (config env))); [lia|].
  eexists. split; [reflexivity|]. apply mark_expired_lookup.
Qed.

Lemma read_cache_missing_timestamp_witness :
  exists w',
    read_cache (demo_env None (always (NetFail "down"))) "Paris"
      (paris_world (Doc (JObj {["data" := demo_payload]})))
    = (Ok (Some (Py.mark_expired {["data" := demo_payload]})), w')
    /\ forall k, k <> "expired" ->
         Py.mark_expired {["data" := demo_payload]} !! k
         = ({["data" := demo_payload]} : dict) !! k.
Proof.
  apply (read_cache_missing_timestamp
           (demo_env None (always (NetFail "down"))) "Paris"
           (paris_world (Doc (JObj {["data" := demo_payload]})))
           {["data" := demo_payload]}).
  - vm_compute. reflexivity.
  - reflexivity.
  - simpl. lia.
Defined.

(** X6.  The expiry mark does not replace an ["expired"] item the file
    already has.  A file older than [CACHE_TTL] (its timestamp in the range
    of floats) that carries a false ["expired"] is therefore served as a
    cache hit: [resolve] renders its data with source ["cache"] and makes
    no HTTP request. *)
Theorem expired_item_in_file_wins env city w (d : dict) ts v :
  fs w !! cache_path env city = Some (Doc (JObj d)) ->
  d !! "timestamp" = Some (JNum ts) ->
  float_ok ts = true ->
  CACHE_TTL (config env) < now w - ts ->
  d !! "expired" = Some v ->
  Py.truthy v = false ->
  exists w',
    resolve env city w
    = (Ok (Render (Py.get d "data") city "cache" (JNum ts) None), w')
    /\ requests_made w' = requests_made w
    /\ fs w' = fs w.
Proof.
  intros Hf Hts Hfloat Hold Hexp Hv.
  assert (Hread : read_cache env city w
                  = (Ok (Some (Py.mark_expired d)),
                     record (read_events env city) w)).
  { rewrite (read_cache_present _ _ _ _ Hf). simpl.
    unfold Py.get_or. rewrite Hts. simpl.
    rewrite (float_ok_converts _ _ Hfloat).
    by destruct (Z.leb_spec (now w - ts) (CACHE_TTL (config env))); [lia|]. }
  assert (Hfresh : cache_is_fresh (Some (Py.mark_expired d)) = true).
  { unfold cache_is_fresh, Py.truthy_cache.
    rewrite (truthy_dict_lookup _ _ _ (mark_expired_keeps d v Hexp)).
    unfold Py.get. simpl default.
    by rewrite (mark_expired_keeps d v Hexp); simpl; rewrite Hv. }
  rewrite (resolve_fresh env _ _ _ _ Hread Hfresh). simpl default.
  unfold Py.get, Py.get_or. rewrite !mark_expired_lookup by done.
  rewrite Hts. simpl. eauto.
Qed.

Lemma expired_item_in_file_wins_witness :
  exists w',
    resolve (demo_env None (always (NetFail "down"))) "Paris"
      (paris_world
         (Doc (JObj {["timestamp" := JNum 0; "data" := demo_payload;
                      "expired" := JBool false]})))
    = (Ok (Render demo_payload "Paris" "cache" (JNum 0) None), w')
    /\ requests_made w' = 0%nat
    /\ fs w'
       = fs (paris_world
               (Doc (JObj {["timestamp" := JNum 0; "data" := demo_payload;
                            "expired" := JBool false]}))).
Proof.
  destruct (expired_item_in_file_wins
              (demo_env None (always (NetFail "down"))) "Paris"
              (paris_world
                 (Doc (JObj {["timestamp" := JNum 0; "data" := demo_payload;
                              "expired" := JBool false]})))
              {["timestamp" := JNum 0; "data" := demo_payload;
                "expired" := JBool false]} 0 (JBool false))
    as (w' & Hres & Hreq & Hfs).
  - vm_compute. reflexivity.
  - reflexivity.
  - vm_compute. reflexivity.
  - simpl. lia.
  - reflexivity.
  - reflexivity.
  - exists w'. split; [exact Hres|]. split; [exact Hreq | exact Hfs].
Defined.

(** X7.  When the cache file cannot be opened for writing, [write_cache]
    still returns: the error is logged and no file is changed. *)
Theorem write_cache_failure_swallowed env city payload w :
  writable env (cache_path env city) = false ->
  exists w',
    write_cache env city payload w = (Ok tt, w')
    /\ fs w' = fs w
    /\ trace w'
       = (trace w
          ++ [EvSlugify city; EvOpenWrite (cache_path env city);
              EvLogError ("Failed writing cache for " ++ city) OSError])%list.
Proof.
  intros Hw. rewrite write_cache_refused by done. eauto.
Qed.

Lemma write_cache_failure_swallowed_witness :
  exists w',
    write_cache (readonly_env None (always (NetFail "down"))) "Paris"
      demo_payload stale_paris = (Ok tt, w')
    /\ fs w' = fs stale_paris
    /\ trace w'
       = [EvSlugify "Paris";
          EvOpenWrite "cache/paris_ccbee73cd81c7f42405e1920409247ec.json";
          EvLogError "Failed writing cache for Paris" OSError].
Proof.
  apply (write_cache_failure_swallowed
           (readonly_env None (always (NetFail "down"))) "Paris"
           demo_payload stale_paris).
  reflexivity.
Defined.

(** X8.  [write_cache] never raises and touches at most the file of its
    city: every other file, the clock and the count of requests are as
    before. *)
Theorem write_cache_touches_one_file env city payload w :
  exists w',
    write_cache env city payload w = (Ok tt, w')
    /\ (forall p, p <> cache_path env city -> fs w' !! p = fs w !! p)
    /\ now w' = now w
    /\ requests_made w' = requests_made w.
Proof.
  destruct (writable env (cache_path env city)) eqn:Hw.
  - rewrite write_cache_writable by done. eexists. split; [reflexivity|].
    split; [|done]. intros p Hp. simpl. by rewrite lookup_insert_ne.
  - rewrite write_cache_refused by done. eexists. split; [reflexivity|]. done.
Qed.

(** X9.  A later write replaces an earlier one: after two writes for a
    city, a read gives the record of the second payload, and nothing is
    left of the first. *)
Theorem write_cache_overwrites env city p1 p2 w :
  writable env (cache_path env city) = true ->
  0 <= CACHE_TTL (config env) ->
  exists w1 w2 w3,
    write_cache env city p1 w = (Ok tt, w1)
    /\ write_cache env city p2 w1 = (Ok tt, w2)
    /\ read_cache env city w2 = (Ok (Some (entry_doc (now w) p2)), w3)
    /\ fs w2 = <[cache_path env city := Doc (JObj (entry_doc (now w) p2))]> (fs w).
Proof.
  intros Hw Httl. rewrite write_cache_writable by done.
  eexists _, _, _. split; [reflexivity|].
  rewrite write_cache_writable by done. split; [reflexivity|]. split.
  - apply read_cache_fresh; simpl;
      [apply lookup_insert_eq | apply converts_same | lia].
  - simpl. apply insert_insert_eq.
Qed.

Lemma write_cache_overwrites_witness :
  exists w1 w2 w3,
    write_cache (demo_env None (always (NetFail "down"))) "Paris"
      (JStr "first") empty_world = (Ok tt, w1)
    /\ write_cache (demo_env None (always (NetFail "down"))) "Paris"
         (JStr "second") w1 = (Ok tt, w2)
    /\ read_cache (demo_env None (always (NetFail "down"))) "Paris" w2
       = (Ok (Some (entry_doc (now empty_world) (JStr "second"))), w3)
    /\ fs w2
       = <[cache_path (demo_env None (always (NetFail "down"))) "Paris"
           := Doc (JObj (entry_doc (now empty_world) (JStr "second")))]>
           (fs empty_world).
Proof.
  apply (write_cache_overwrites
           (demo_env None (always (NetFail "down"))) "Paris"
           (JStr "first") (JStr "second") empty_world).
  - reflexivity.
  - simpl. lia.
Defined.

(* ===================================================================== *)
(** ** Further properties: the upstream client *)
(* ===================================================================== *)

Create HintDb quiet.

Lemma quiet_ret {A} (a : A) : quiet (ret a).
Proof. intros w. simpl. split; [done | lia]. Qed.

Lemma quiet_raise {A} (e : exn) : quiet (@raise A e).
Proof. intros w. simpl. split; [done | lia]. Qed.

Lemma quiet_emit ev : quiet (emit ev).
Proof. intros w. simpl. split; [done | lia]. Qed.

Lemma quiet_bind {A B} (c : M A) (k : A -> M B) :
  quiet c -> (forall a, quiet (k a)) -> quiet (bind c k).
Proof.
  intros Hc Hk w. unfold bind. destruct (Hc w) as [Hr Hn].
  destruct (c w) as [[a|e] w1]; simpl in *; [|done].
  destruct (Hk a w1) as [Hr' Hn']. split; [congruence | lia].
Qed.

Lemma quiet_try {A} (body : M A) cls (handler : exn -> M A) :
  quiet body -> (forall e, quiet (handler e)) ->
  quiet (try_except body cls handler).
Proof.
  intros Hb Hh w. unfold try_except. destruct (Hb w) as [Hr Hn].
  destruct (body w) as [[a|e] w1]; simpl in *; [done|].
  destruct (isinstance e cls); simpl; [|done].
  destruct (Hh e w1) as [Hr' Hn']. split; [congruence | lia].
Qed.

Lemma quiet_if {A} (b : bool) (c1 c2 : M A) :
  quiet c1 -> quiet c2 -> quiet (if b then c1 else c2).
Proof. by destruct b. Qed.

Lemma quiet_time_time : quiet time_time.
Proof. intros w. simpl. split; [done | lia]. Qed.

Lemma quiet_time_sleep env secs : quiet (time_sleep env secs).
Proof.
  intros w. unfold time_sleep.
  destruct (secs <? - SLEEP_T_MAX); [simpl; split; [done | lia]|].
  destruct (Z.ltb_spec secs 0); [simpl; split; [done | lia]|].
  destruct (secs <=? sleep_limit env); [simpl; split; [done | lia]|].
  destruct (SLEEP_T_MAX <? secs); simpl; (split; [done | lia]).
Qed.

Lemma quiet_py_int s : quiet (py_int s).
Proof. unfold py_int. destruct (PyStr.int s); [apply quiet_ret | apply quiet_raise]. Qed.

Lemma quiet_path_exists env p : quiet (path_exists env p).
Proof.
  intros w. unfold path_exists, bind, emit. simpl.
  destruct (fs w !! p); [|destruct (stat_fails env p)]; simpl;
    (split; [done | lia]).
Qed.

Lemma quiet_json_load p : quiet (json_load p).
Proof.
  intros w. unfold json_load, bind, emit. simpl.
  destruct (fs w !! p) as [[| |j]|]; simpl; (split; [done | lia]).
Qed.

Lemma quiet_json_dump env p doc : quiet (json_dump env p doc).
Proof.
  intros w. unfold json_dump, bind, emit. simpl.
  destruct (writable env p); simpl; (split; [done | lia]).
Qed.

Lemma quiet_as_dict data : quiet (as_dict data).
Proof. destruct data; simpl; (apply quiet_ret || apply quiet_raise). Qed.

Lemma quiet_py_sub t ts : quiet (py_sub t ts).
Proof.
  destruct ts; simpl; try (apply quiet_ret || apply quiet_raise).
  destruct (converts t z); (apply quiet_ret || apply quiet_raise).
Qed.

Lemma quiet_resp_json resp : quiet (resp_json resp).
Proof.
  unfold resp_json. destruct (body resp); [apply quiet_ret | apply quiet_raise].
Qed.

#[local] Hint Resolve quiet_ret quiet_raise quiet_emit quiet_time_time
  quiet_time_sleep quiet_py_int quiet_path_exists quiet_json_load
  quiet_json_dump quiet_as_dict quiet_py_sub quiet_resp_json : quiet.
#[local] Hint Extern 1 (quiet (log_request _ _ _ _)) =>
  apply quiet_emit : quiet.
#[local] Hint Extern 1 (quiet (logging_error _ _)) =>
  apply quiet_emit : quiet.
#[local] Hint Extern 2 (quiet (bind _ _)) =>
  apply quiet_bind; [|intros ?] : quiet.
#[local] Hint Extern 2 (quiet (try_except _ _ _)) =>
  apply quiet_try; [|intros ?] : quiet.
#[local] Hint Extern 2 (quiet (if _ then _ else _)) =>
  apply quiet_if : quiet.
#[local] Hint Extern 3 (quiet (match ?x with _ => _ end)) =>
  destruct x : quiet.

Section Requests.

Variable env : Env.

Lemma quiet_read_cache city : quiet (read_cache env city).
Proof. unfold read_cache, cache_path_for. auto 15 with quiet. Qed.

Lemma quiet_write_cache city payload : quiet (write_cache env city payload).
Proof. unfold write_cache, cache_path_for. auto 15 with quiet. Qed.

Lemma quiet_dispatch city cache resp : quiet (dispatch env city cache resp).
Proof.
  unfold dispatch. pose proof quiet_write_cache. auto 20 with quiet.
Qed.

Lemma quiet_sleep_after_429 hdr attempt :
  quiet (sleep_after_429 env hdr attempt).
Proof. unfold sleep_after_429. auto 10 with quiet. Qed.

Lemma one_request_get params : one_request (requests_get env params).
Proof.
  intros w. unfold requests_get, bind, emit. simpl.
  destruct (upstream env (requests_made w)); simpl; (split; [done | lia]).
Qed.

Lemma one_request_bind {A B} (c : M A) (k : A -> M B) :
  one_request c -> (forall a, quiet (k a)) -> one_request (bind c k).
Proof.
  intros Hc Hk w. unfold bind. destruct (Hc w) as [Hr Hn].
  destruct (c w) as [[a|e] w1]; simpl in *; [|done].
  destruct (Hk a w1) as [Hr' Hn']. split; [congruence | lia].
Qed.

Lemma one_request_try {A} (body : M A) cls (handler : exn -> M A) :
  one_request body -> (forall e, quiet (handler e)) ->
  one_request (try_except body cls handler).
Proof.
  intros Hb Hh w. unfold try_except. destruct (Hb w) as [Hr Hn].
  destruct (body w) as [[a|e] w1]; simpl in *; [done|].
  destruct (isinstance e cls); simpl; [|done].
  destruct (Hh e w1) as [Hr' Hn']. split; [congruence | lia].
Qed.

(** Every pass of the loop makes one request, however it ends. *)
Lemma fetch_attempt_one_request city attempt :
  one_request (fetch_attempt env city attempt).
Proof.
  unfold fetch_attempt. pose proof quiet_sleep_after_429.
  apply one_request_try; [apply one_request_bind|].
  - apply one_request_get.
  - intros resp. auto 10 with quiet.
  - intros e. auto 10 with quiet.
Qed.

Lemma fetch_loop_at_most city remaining attempt :
  at_most remaining (fetch_loop env city remaining attempt).
Proof.
  revert attempt. induction remaining as [|k IH]; intros attempt w.
  - simpl. lia.
  - rewrite fetch_loop_step.
    destruct (fetch_attempt_one_request city attempt w) as [Hr Hn].
    destruct (fetch_attempt env city attempt w) as [[[r|u]|e] w1];
      simpl in *; try lia.
    destruct (IH (attempt + 1) w1) as [Hr' Hn']. lia.
Qed.

Lemma fetch_weather_from_api_at_most city :
  at_most (Z.to_nat (MAX_RETRIES (config env)))
    (fetch_weather_from_api env city).
Proof.
  intros w. unfold fetch_weather_from_api.
  destruct (negb _); [simpl; lia | apply fetch_loop_at_most].
Qed.

Lemma resolve_at_most city :
  at_most (Z.to_nat (MAX_RETRIES (config env))) (resolve env city).
Proof.
  intros w. unfold resolve, bind.
  destruct (quiet_read_cache city w) as [Hr Hn].
  destruct (read_cache env city w) as [[cache|e] w1]; simpl in *; [|lia].
  destruct (cache_is_fresh cache); [simpl; lia|].
  destruct (fetch_weather_from_api_at_most city w1) as [Hr1 Hn1].
  destruct (fetch_weather_from_api env city w1) as [[[resp|]|e] w2];
    simpl in *; [| |lia].
  - destruct (quiet_dispatch city cache resp w2) as [Hr2 Hn2]. lia.
  - destruct (Py.truthy_cache cache); simpl; lia.
Qed.

End Requests.

(** X10.  One call of the handler makes at most [MAX_RETRIES] HTTP
    requests, whatever the provider answers and however the call ends, and
    never turns the clock back. *)
Theorem weather_request_bound env form_city w :
  (requests_made w <= requests_made (weather env form_city w).2
   <= requests_made w + Z.to_nat (MAX_RETRIES (config env)))%nat
  /\ now w <= now (weather env form_city w).2.
Proof.
  unfold weather. destruct (negb _); [simpl; lia|]. apply resolve_at_most.
Qed.

Section Answers.

Variable env : Env.

(** A pass that goes on to the next one was given a retryable answer. *)
Lemma fetch_attempt_inr city attempt w u w' :
  fetch_attempt env city attempt w = (Ok (inr u), w') ->
  retryable (upstream env (requests_made w)) = true
  /\ requests_made w' = S (requests_made w).
Proof.
  intros Ha.
  destruct (fetch_attempt_one_request env city attempt w) as [Hr _].
  rewrite Ha in Hr. split; [|exact Hr].
  destruct (upstream env (requests_made w)) as [msg|r] eqn:Hup; [done|].
  simpl. destruct (Z.eqb_spec (status_code r) 429) as [|Hne]; [done|].
  rewrite (fetch_attempt_other env city attempt w r Hup Hne) in Ha.
  discriminate Ha.
Qed.

Lemma fetch_loop_some city remaining attempt w resp w' :
  fetch_loop env city remaining attempt w = (Ok (Some resp), w') ->
  exists k,
    (k < remaining)%nat
    /\ upstream env (requests_made w + k)%nat = Resp resp
    /\ status_code resp <> 429
    /\ requests_made w' = (requests_made w + k + 1)%nat
    /\ forall j, (j < k)%nat ->
         retryable (upstream env (requests_made w + j)%nat) = true.
Proof.
  revert attempt w. induction remaining as [|n IH]; intros attempt w.
  - simpl. intros [=].
  - rewrite fetch_loop_step.
    destruct (fetch_attempt env city attempt w) as [[[r|u]|e] w1] eqn:Ha.
    + intros [= <- <-].
      apply fetch_attempt_inl in Ha as (Hup & Hst & ->).
      exists 0%nat. rewrite Nat.add_0_r. repeat split; try done; try lia.
      simpl. lia.
    + intros Hloop. apply fetch_attempt_inr in Ha as [Hretry Hreq].
      destruct (IH _ _ Hloop) as (k & Hk & Hup & Hst & Hcount & Hbefore).
      rewrite Hreq in Hup, Hcount, Hbefore.
      exists (S k). split; [lia|].
      split; [by replace (requests_made w + S k)%nat
                   with (S (requests_made w) + k)%nat by lia|].
      split; [done|]. split; [lia|].
      intros [|j] Hj.
      * by rewrite Nat.add_0_r.
      * replace (requests_made w + S j)%nat
          with (S (requests_made w) + j)%nat by lia.
        apply Hbefore. lia.
    + intros [=].
Qed.

Lemma fetch_loop_exhausts city remaining attempt w :
  sleeps_accepted env ->
  0 <= attempt ->
  (remaining <> O ->
   attempt + Z.of_nat remaining <= MAX_RETRIES (config env)) ->
  (forall i, (i < remaining)%nat ->
     retryable (upstream env (requests_made w + i)%nat) = true) ->
  exists w',
    fetch_loop env city remaining attempt w = (Ok None, w')
    /\ requests_made w' = (requests_made w + remaining)%nat
    /\ fs w' = fs w.
Proof.
  intros Hs. revert attempt w.
  induction remaining as [|n IH]; intros attempt w H0 Hle Hretry.
  - simpl. exists w. by rewrite Nat.add_0_r.
  - rewrite fetch_loop_step.
    pose proof (Hretry 0%nat ltac:(lia)) as Hfirst.
    rewrite Nat.add_0_r in Hfirst.
    assert (Hnext : exists w1,
               fetch_attempt env city attempt w = (Ok (inr tt), w1)
               /\ requests_made w1 = S (requests_made w) /\ fs w1 = fs w).
    { destruct (upstream env (requests_made w)) as [msg|r] eqn:Hup.
      - rewrite (fetch_attempt_netfail env city attempt w msg Hup);
          [eexists; by split|].
        apply Hs. lia.
      - simpl in Hfirst. apply Z.eqb_eq in Hfirst.
        rewrite (fetch_attempt_429 env city attempt w r Hup Hfirst);
          [eexists; by split|].
        eapply retry_wait_accepted; eauto. lia. }
    destruct Hnext as (w1 & -> & Hreq & Hfs).
    destruct (IH (attempt + 1) w1) as (w' & Hloop & Hcount & Hfs');
      [lia | lia | |].
    + intros i Hi. rewrite Hreq.
      replace (S (requests_made w) + i)%nat
        with (requests_made w + S i)%nat by lia.
      apply Hretry. lia.
    + exists w'. split; [done|]. split; [lia | congruence].
Qed.

Lemma fetch_weather_from_api_exhausts city w :
  PyStr.truthy (default "" (API_KEY (config env))) = true ->
  sleeps_accepted env ->
  (forall i, (i < Z.to_nat (MAX_RETRIES (config env)))%nat ->
     retryable (upstream env (requests_made w + i)%nat) = true) ->
  exists w',
    fetch_weather_from_api env city w = (Ok None, w')
    /\ requests_made w'
       = (requests_made w + Z.to_nat (MAX_RETRIES (config env)))%nat
    /\ fs w' = fs w.
Proof.
  intros Hkey Hs Hretry. rewrite fetch_weather_from_api_with_key by done.
  apply fetch_loop_exhausts; try done; lia.
Qed.

Lemma fetch_weather_from_api_first_answer city w r :
  PyStr.truthy (default "" (API_KEY (config env))) = true ->
  1 <= MAX_RETRIES (config env) ->
  upstream env (requests_made w) = Resp r ->
  status_code r <> 429 ->
  fetch_weather_from_api env city w
  = (Ok (Some r),
     count_request
       (record [EvGet (API_URL (config env)) (request_params env city)] w)).
Proof.
  intros Hkey Hmax Hup Hst. rewrite fetch_weather_from_api_with_key by done.
  replace (Z.to_nat (MAX_RETRIES (config env)))
    with (S (Z.to_nat (MAX_RETRIES (config env) - 1))) by lia.
  rewrite fetch_loop_step.
  by rewrite (fetch_attempt_other env city 0 w r Hup Hst).
Qed.

End Answers.

(** X11.  A response that [fetch_weather_from_api] returns is the
    provider's answer to the last request of the call; it is not a 429,
    and every answer before it in the call was a transport failure or a
    429.  The call made one request per answer, fewer than
    [MAX_RETRIES] of them being retried. *)
Theorem fetch_returns_first_final_answer env city w resp w' :
  fetch_weather_from_api env city w = (Ok (Some resp), w') ->
  exists k,
    (k < Z.to_nat (MAX_RETRIES (config env)))%nat
    /\ upstream env (requests_made w + k)%nat = Resp resp
    /\ status_code resp <> 429
    /\ requests_made w' = (requests_made w + k + 1)%nat
    /\ forall j, (j < k)%nat ->
         retryable (upstream env (requests_made w + j)%nat) = true.
Proof.
  unfold fetch_weather_from_api.
  destruct (negb _); [intros [=] | apply fetch_loop_some].
Qed.

Lemma fetch_returns_first_final_answer_witness :
  exists k,
    (k < 3)%nat
    /\ script [NetFail "reset"; answer 429 (Some "2") None]
         (answer 200 None (Some demo_payload)) (0 + k)%nat
       = Resp {| status_code := 200; retry_after := None;
                 body := Some demo_payload |}
    /\ requests_made
         (fetch_weather_from_api
            (demo_env (Some "secret")
               (script [NetFail "reset"; answer 429 (Some "2") None]
                  (answer 200 None (Some demo_payload))))
            "Paris" empty_world).2
       = (0 + k + 1)%nat.
Proof.
  destruct (fetch_returns_first_final_answer
              (demo_env (Some "secret")
                 (script [NetFail "reset"; answer 429 (Some "2") None]
                    (answer 200 None (Some demo_payload))))
              "Paris" empty_world
              {| status_code := 200; retry_after := None;
                 body := Some demo_payload |}
              (fetch_weather_from_api
                 (demo_env (Some "secret")
                    (script [NetFail "reset"; answer 429 (Some "2") None]
                       (answer 200 None (Some demo_payload))))
                 "Paris" empty_world).2)
    as (k & Hk & Hup & _ & Hreq & _).
  - vm_compute. reflexivity.
  - exists k. split; [exact Hk|]. split; [exact Hup | exact Hreq].
Defined.

(** X12.  An answer that is not a 429 is handed back at once: with an API
    key and at least one attempt allowed, the call makes that one request,
    logs nothing, does not sleep and does not retry - whatever the status,
    4xx and 5xx included. *)
Theorem fetch_does_not_retry_error_status env city w r :
  PyStr.truthy (default "" (API_KEY (config env))) = true ->
  1 <= MAX_RETRIES (config env) ->
  upstream env (requests_made w) = Resp r ->
  status_code r <> 429 ->
  exists w',
    fetch_weather_from_api env city w = (Ok (Some r), w')
    /\ requests_made w' = S (requests_made w)
    /\ now w' = now w
    /\ trace w'
       = (trace w
          ++ [EvGet (API_URL (config env)) (request_params env city)])%list.
Proof.
  intros Hkey Hmax Hup Hst.
  rewrite (fetch_weather_from_api_first_answer env city w r) by done.
  eexists. split; [reflexivity|]. done.
Qed.

Lemma fetch_does_not_retry_error_status_witness :
  exists w',
    fetch_weather_from_api
      (demo_env (Some "secret") (always (answer 500 None None))) "Paris"
      empty_world
    = (Ok (Some {| status_code := 500; retry_after := None; body := None |}),
       w')
    /\ requests_made w' = 1%nat
    /\ now w' = now empty_world
    /\ trace w'
       = [EvGet (Some "https://api.openweathermap.org/data/2.5/weather")
            [("q", Some "Paris"); ("appid", Some "secret");
             ("units", Some "metric"); ("lang", Some "en")]].
Proof.
  apply (fetch_does_not_retry_error_status
           (demo_env (Some "secret") (always (answer 500 None None)))
           "Paris" empty_world
           {| status_code := 500; retry_after := None; body := None |}).
  - reflexivity.
  - simpl. lia.
  - reflexivity.
  - simpl. lia.
Defined.

(** X13.  With [MAX_RETRIES] zero or negative the loop is not entered:
    the provider is never contacted, and the call returns [None] in an
    unchanged world - the handler then reports the service unreachable. *)
Theorem fetch_without_attempts env city w :
  PyStr.truthy (default "" (API_KEY (config env))) = true ->
  MAX_RETRIES (config env) <= 0 ->
  fetch_weather_from_api env city w = (Ok None, w).
Proof.
  intros Hkey Hmax. rewrite fetch_weather_from_api_with_key by done.
  by replace (Z.to_nat (MAX_RETRIES (config env))) with O by lia.
Qed.

Lemma fetch_without_attempts_witness :
  fetch_weather_from_api
    (retries_env 0 (always (answer 200 None (Some demo_payload)))) "Paris"
    empty_world
  = (Ok None, empty_world).
Proof.
  apply (fetch_without_attempts
           (retries_env 0 (always (answer 200 None (Some demo_payload))))
           "Paris" empty_world).
  - reflexivity.
  - simpl. lia.
Defined.

(** X14.  When the provider's next [MAX_RETRIES] answers are all transport
    failures or 429 responses, in any mix, and the sleeps are accepted,
    the call makes exactly [MAX_RETRIES] requests and returns [None]. *)
Theorem fetch_exhausts_on_retryable_answers env city w :
  PyStr.truthy (default "" (API_KEY (config env))) = true ->
  sleeps_accepted env ->
  (forall i, (i < Z.to_nat (MAX_RETRIES (config env)))%nat ->
     retryable (upstream env (requests_made w + i)%nat) = true) ->
  exists w',
    fetch_weather_from_api env city w = (Ok None, w')
    /\ requests_made w'
       = (requests_made w + Z.to_nat (MAX_RETRIES (config env)))%nat
    /\ fs w' = fs w.
Proof. apply fetch_weather_from_api_exhausts. Qed.

Lemma demo_backoff_accepted key up attempt :
  0 <= attempt < 3 ->
  sleep_ok (demo_env key up) (backoff (demo_env key up) attempt).
Proof.
  intros Ha. unfold sleep_ok, backoff. simpl.
  assert (attempt = 0 \/ attempt = 1 \/ attempt = 2) as [-> | [-> | ->]]
    by lia; simpl; lia.
Qed.

Lemma fetch_exhausts_on_retryable_answers_witness :
  exists w',
    fetch_weather_from_api
      (demo_env (Some "secret")
         (script [NetFail "reset"; answer 429 (Some "3") None;
                  answer 429 None None]
            (answer 200 None (Some demo_payload))))
      "Paris" empty_world = (Ok None, w')
    /\ requests_made w' = 3%nat
    /\ fs w' = fs empty_world.
Proof.
  apply (fetch_exhausts_on_retryable_answers
           (demo_env (Some "secret")
              (script [NetFail "reset"; answer 429 (Some "3") None;
                       answer 429 None None]
                 (answer 200 None (Some demo_payload))))
           "Paris" empty_world).
  - reflexivity.
  - split.
    + intros attempt Ha. by apply demo_backoff_accepted.
    + intros i r n Hup Hst Hn. unfold sleep_ok.
      destruct i as [|[|[|i]]].
      * discriminate Hup.
      * injection Hup as <-. vm_compute in Hn. injection Hn as <-.
        simpl. lia.
      * injection Hup as <-. vm_compute in Hn. discriminate Hn.
      * assert (r = {| status_code := 200; retry_after := None;
                       body := Some demo_payload |}) as ->
          by (destruct i; simpl in Hup; by injection Hup).
        discriminate Hst.
  - intros i Hi. simpl in Hi.
    destruct i as [|[|[|i]]]; [reflexivity | reflexivity | reflexivity | lia].
Defined.

(* ===================================================================== *)
(** ** Further properties: the handler *)
(* ===================================================================== *)

Section Handler.

Variable env : Env.

Lemma fetch_negative_hint city w r s n :
  PyStr.truthy (default "" (API_KEY (config env))) = true ->
  1 <= MAX_RETRIES (config env) ->
  upstream env (requests_made w) = Resp r ->
  status_code r = 429 ->
  retry_after r = Some s -> PyStr.int s = Some n -> n < 0 ->
  exists w',
    fetch_weather_from_api env city w = (Raise (negative_sleep_error n), w').
Proof.
  intros Hkey Hmax Hup Hst Hhdr Hint Hneg.
  rewrite fetch_weather_from_api_with_key by done.
  replace (Z.to_nat (MAX_RETRIES (config env)))
    with (S (Z.to_nat (MAX_RETRIES (config env) - 1))) by lia.
  rewrite fetch_loop_step.
  destruct (fetch_attempt_429_negative env city 0 w r s n) as (w' & ->);
    eauto.
Qed.

Lemma dispatch_200_stored city cache resp payload w :
  status_code resp = 200 ->
  body resp = Some payload ->
  writable env (cache_path env city) = true ->
  dispatch env city cache resp w
  = (Ok (Render payload city "api" (JNum (now w)) None),
     record [EvLogInfo city 200 "API" "fetched and cached"]
       (store (cache_path env city) (Doc (JObj (entry_doc (now w) payload)))
          (record [EvSlugify city; EvOpenWrite (cache_path env city)] w))).
Proof.
  intros Hst Hbody Hw. unfold dispatch. rewrite Hst. simpl.
  unfold try_except, bind, resp_json. rewrite Hbody. simpl.
  rewrite write_cache_writable by done. reflexivity.
Qed.

Lemma dispatch_200_not_stored city cache resp payload w :
  status_code resp = 200 ->
  body resp = Some payload ->
  writable env (cache_path env city) = false ->
  exists w',
    dispatch env city cache resp w
    = (Ok (Render payload city "api" (JNum (now w)) None), w')
    /\ fs w' = fs w.
Proof.
  intros Hst Hbody Hw. unfold dispatch. rewrite Hst. simpl.
  unfold try_except, bind, resp_json. rewrite Hbody. simpl.
  rewrite write_cache_refused by done. simpl. eauto.
Qed.

Lemma dispatch_200_bad_body city cache resp w :
  status_code resp = 200 ->
  body resp = None ->
  dispatch env city cache resp w
  = (Ok (Redirect "Error processing the received data." "danger"),
     record [EvLogError ("Failed parsing JSON for " ++ city)
               RequestsJSONDecodeError] w).
Proof.
  intros Hst Hbody. unfold dispatch. rewrite Hst. simpl.
  unfold try_except, bind, resp_json. rewrite Hbody. reflexivity.
Qed.

(** Outside 200, 429 and 5xx the dispatch redirects. *)
Lemma dispatch_permanent city cache resp w :
  status_code resp <> 200 -> status_code resp <> 429 ->
  ~ (500 <= status_code resp < 600) ->
  exists msg cat w',
    dispatch env city cache resp w = (Ok (Redirect msg cat), w').
Proof.
  intros H200 H429 H5xx. unfold dispatch.
  destruct (Z.eqb_spec (status_code resp) 200); [done|].
  destruct (status_code resp =? 401); [unfold bind; simpl; eauto|].
  destruct (status_code resp =? 404); [unfold bind; simpl; eauto|].
  destruct (Z.eqb_spec (status_code resp) 429); [done|].
  destruct (Z.leb_spec 500 (status_code resp));
    destruct (Z.ltb_spec (status_code resp) 600); simpl;
    try lia; unfold bind; simpl; eauto.
Qed.

(** The renderings of the dispatch, by source. *)
Lemma dispatch_render_source city cache resp w data c src ts warn w' :
  dispatch env city cache resp w = (Ok (Render data c src ts warn), w') ->
  c = city
  /\ (src = "api" \/ src = "cache_server_error"
      \/ (src = "cache_rate_limited" /\ status_code resp = 429)).
Proof.
  unfold dispatch.
  destruct (status_code resp =? 200).
  { unfold try_except, bind, resp_json.
    destruct (body resp) as [j|]; simpl; [|intros [=]].
    destruct (write_cache_returns env city j w) as (w1 & ->). simpl.
    intros [= <- <- <- <- <- <-]. auto. }
  destruct (status_code resp =? 401); [unfold bind; simpl; intros [=]|].
  destruct (status_code resp =? 404); [unfold bind; simpl; intros [=]|].
  destruct (Z.eqb_spec (status_code resp) 429).
  { unfold bind; simpl. destruct (Py.truthy_cache cache); simpl;
      [intros [= <- <- <- <- <- <-]; auto | intros [=]]. }
  destruct (_ && _); unfold bind; simpl; [|intros [=]].
  destruct (Py.truthy_cache cache); simpl;
    [intros [= <- <- <- <- <- <-]; auto | intros [=]].
Qed.

(** What one run of the dispatch does to the cache directory. *)
Lemma dispatch_fs city cache resp w :
  fs (dispatch env city cache resp w).2 = fs w
  \/ exists payload,
       (dispatch env city cache resp w).1
       = Ok (Render payload city "api"
               (JNum (now (dispatch env city cache resp w).2)) None)
       /\ fs (dispatch env city cache resp w).2
          = <[cache_path env city
              := Doc (JObj (entry_doc
                              (now (dispatch env city cache resp w).2)
                              payload))]> (fs w).
Proof.
  destruct (Z.eq_dec (status_code resp) 200) as [H200|H200].
  - destruct (body resp) as [payload|] eqn:Hbody.
    + destruct (writable env (cache_path env city)) eqn:Hw.
      * right. exists payload.
        by rewrite (dispatch_200_stored _ _ _ _ _ H200 Hbody Hw).
      * left.
        destruct (dispatch_200_not_stored city cache resp payload w
                    H200 Hbody Hw) as (w' & -> & Hfs). done.
    + left. by rewrite (dispatch_200_bad_body _ _ _ _ H200 Hbody).
  - left. by apply preserves_dispatch_not_200.
Qed.

End Handler.

(** X15.  A 429 whose [Retry-After] parses to a negative number brings the
    whole request down: with no fresh cache entry, the exception of
    [time.sleep] - [ValueError], or [OverflowError] for a number below
    -9223372036 - leaves [fetch_weather_from_api] and then the handler. *)
Theorem negative_retry_after_escapes env city w cache w1 r s n :
  read_cache env city w = (Ok cache, w1) ->
  cache_is_fresh cache = false ->
  PyStr.truthy (default "" (API_KEY (config env))) = true ->
  1 <= MAX_RETRIES (config env) ->
  upstream env (requests_made w) = Resp r ->
  status_code r = 429 ->
  retry_after r = Some s -> PyStr.int s = Some n -> n < 0 ->
  exists w',
    resolve env city w
    = (Raise (if n <? -9223372036 then OverflowError else ValueError), w').
Proof.
  intros Hread Hfresh Hkey Hmax Hup Hst Hhdr Hint Hneg.
  destruct (read_cache_frame env city w _ _ Hread) as (_ & _ & Hreq).
  rewrite <- Hreq in Hup.
  destruct (fetch_negative_hint env city w1 r s n Hkey Hmax Hup Hst Hhdr
              Hint Hneg) as (w' & Hfetch).
  exists w'.
  rewrite (resolve_fetch_raises env _ _ _ _ _ _ Hread Hfresh Hfetch).
  reflexivity.
Qed.

Lemma negative_retry_after_escapes_witness :
  exists w',
    resolve (demo_env (Some "secret") (always (answer 429 (Some "-5") None)))
      "Paris" stale_paris = (Raise ValueError, w').
Proof.
  apply (negative_retry_after_escapes
           (demo_env (Some "secret") (always (answer 429 (Some "-5") None)))
           "Paris" stale_paris
           (Some (expired_doc 1600000000 demo_payload))
           (record (read_events
                      (demo_env (Some "secret")
                         (always (answer 429 (Some "-5") None))) "Paris")
              stale_paris)
           {| status_code := 429; retry_after := Some "-5"; body := None |}
           "-5" (-5)).
  - vm_compute. reflexivity.
  - reflexivity.
  - reflexivity.
  - simpl. lia.
  - reflexivity.
  - reflexivity.
  - reflexivity.
  - vm_compute. reflexivity.
  - lia.
Defined.

(** X16.  A successful fetch is cached and then served from the cache:
    when the first answer is a 200 with a JSON body and the cache file can
    be written, [resolve] renders the payload with source ["api"] after one
    request and stores it; a second [resolve] right after, for any spelling
    of the city with the same slug, renders the same payload with source
    ["cache"] and makes no request. *)
Theorem api_success_then_cache_hit env city city' w cache w1 r payload :
  read_cache env city w = (Ok cache, w1) ->
  cache_is_fresh cache = false ->
  PyStr.truthy (default "" (API_KEY (config env))) = true ->
  1 <= MAX_RETRIES (config env) ->
  upstream env (requests_made w) = Resp r ->
  status_code r = 200 ->
  body r = Some payload ->
  writable env (cache_path env city) = true ->
  0 <= CACHE_TTL (config env) ->
  slugify city' = slugify city ->
  exists w2 w3,
    resolve env city w
    = (Ok (Render payload city "api" (JNum (now w)) None), w2)
    /\ requests_made w2 = S (requests_made w)
    /\ fs w2 = <[cache_path env city
                 := Doc (JObj (entry_doc (now w) payload))]> (fs w)
    /\ resolve env city' w2
       = (Ok (Render payload city' "cache" (JNum (now w)) None), w3)
    /\ requests_made w3 = requests_made w2.
Proof.
  intros Hread Hfresh Hkey Hmax Hup Hst Hbody Hw Httl Hslug.
  destruct (read_cache_frame env city w _ _ Hread) as (Hfs & Hnow & Hreq).
  rewrite <- Hreq in Hup.
  pose proof (fetch_weather_from_api_first_answer env city w1 r Hkey Hmax Hup
                ltac:(lia)) as Hfetch.
  rewrite (resolve_response env _ _ _ _ _ _ Hread Hfresh Hfetch).
  rewrite (dispatch_200_stored env city cache r payload _ Hst Hbody Hw).
  simpl now. rewrite Hnow.
  eexists _, _. split; [reflexivity|].
  split; [simpl; congruence|]. split; [simpl; by rewrite Hfs|].
  assert (Hpath : cache_path env city' = cache_path env city)
    by (unfold cache_path; by rewrite Hslug).
  match goal with
  | |- resolve env city' ?w2 = _ /\ _ =>
      assert (Hread2 : read_cache env city' w2
                       = (Ok (Some (entry_doc (now w) payload)),
                          record (read_events env city') w2))
  end.
  { apply read_cache_fresh.
    - rewrite Hpath. simpl. apply lookup_insert_eq.
    - simpl. rewrite ?Hnow. apply converts_same.
    - simpl. lia. }
  rewrite (resolve_fresh env _ _ _ _ Hread2 (entry_doc_fresh _ _)).
  split; reflexivity.
Qed.

Lemma api_success_then_cache_hit_witness :
  exists w2 w3,
    resolve (demo_env (Some "secret")
               (always (answer 200 None (Some demo_payload))))
      "Paris" empty_world
    = (Ok (Render demo_payload "Paris" "api" (JNum 1700000000) None), w2)
    /\ requests_made w2 = 1%nat
    /\ resolve (demo_env (Some "secret")
                  (always (answer 200 None (Some demo_payload))))
         "PARIS" w2
       = (Ok (Render demo_payload "PARIS" "cache" (JNum 1700000000) None), w3)
    /\ requests_made w3 = requests_made w2.
Proof.
  destruct (api_success_then_cache_hit
              (demo_env (Some "secret")
                 (always (answer 200 None (Some demo_payload))))
              "Paris" "PARIS" empty_world None
              (record [EvSlugify "Paris";
                       EvExists "cache/paris_ccbee73cd81c7f42405e1920409247ec.json"]
                 empty_world)
              {| status_code := 200; retry_after := None;
                 body := Some demo_payload |} demo_payload)
    as (w2 & w3 & Hapi & Hreq & _ & Hhit & Hreq').
  - vm_compute. reflexivity.
  - reflexivity.
  - reflexivity.
  - simpl. lia.
  - reflexivity.
  - reflexivity.
  - reflexivity.
  - reflexivity.
  - simpl. lia.
  - vm_compute. reflexivity.
  - exists w2, w3. split; [exact Hapi|]. split; [exact Hreq|].
    split; [exact Hhit | exact Hreq'].
Defined.

(** X17.  A 200 whose body is not JSON is not covered by the cache: the
    handler logs the error and redirects with "Error processing the
    received data.", even when a stale entry is at hand, and changes no
    cache file. *)
Theorem undecodable_body_no_fallback env city w cache w1 r :
  read_cache env city w = (Ok cache, w1) ->
  cache_is_fresh cache = false ->
  PyStr.truthy (default "" (API_KEY (config env))) = true ->
  1 <= MAX_RETRIES (config env) ->
  upstream env (requests_made w) = Resp r ->
  status_code r = 200 ->
  body r = None ->
  exists w',
    resolve env city w
    = (Ok (Redirect "Error processing the received data." "danger"), w')
    /\ fs w' = fs w.
Proof.
  intros Hread Hfresh Hkey Hmax Hup Hst Hbody.
  destruct (read_cache_frame env city w _ _ Hread) as (Hfs & _ & Hreq).
  rewrite <- Hreq in Hup.
  pose proof (fetch_weather_from_api_first_answer env city w1 r Hkey Hmax Hup
                ltac:(lia)) as Hfetch.
  rewrite (resolve_response env _ _ _ _ _ _ Hread Hfresh Hfetch).
  rewrite (dispatch_200_bad_body env city cache r _ Hst Hbody).
  eexists. split; [reflexivity|]. simpl. exact Hfs.
Qed.

Lemma undecodable_body_no_fallback_witness :
  exists w',
    resolve (demo_env (Some "secret") (always (answer 200 None None)))
      "Paris" stale_paris
    = (Ok (Redirect "Error processing the received data." "danger"), w')
    /\ fs w' = fs stale_paris.
Proof.
  apply (undecodable_body_no_fallback
           (demo_env (Some "secret") (always (answer 200 None None)))
           "Paris" stale_paris
           (Some (expired_doc 1600000000 demo_payload))
           (record (read_events
                      (demo_env (Some "secret")
                         (always (answer 200 None None))) "Paris")
              stale_paris)
           {| status_code := 200; retry_after := None; body := None |}).
  - vm_compute. reflexivity.
  - reflexivity.
  - reflexivity.
  - simpl. lia.
  - reflexivity.
  - reflexivity.
  - reflexivity.
Defined.

(** X18.  A stale cache entry stands in for the provider only when the
    retries are exhausted or the status is 5xx: for every other status
    than 200 the reply is a redirect with a flash message, never a
    rendering of cached data, and no cache file is changed. *)
Theorem permanent_errors_redirect env city w cache w1 resp w2 :
  read_cache env city w = (Ok cache, w1) ->
  cache_is_fresh cache = false ->
  fetch_weather_from_api env city w1 = (Ok (Some resp), w2) ->
  status_code resp <> 200 ->
  ~ (500 <= status_code resp < 600) ->
  exists msg cat w',
    resolve env city w = (Ok (Redirect msg cat), w')
    /\ fs w' = fs w.
Proof.
  intros Hread Hfresh Hfetch H200 H5xx.
  destruct (read_cache_frame env city w _ _ Hread) as (Hfs & _ & _).
  pose proof (fetch_weather_from_api_not_429 env _ _ _ _ Hfetch) as H429.
  pose proof (preserves_fetch_weather_from_api env city w1) as Hfs2.
  rewrite Hfetch in Hfs2. simpl in Hfs2.
  rewrite (resolve_response env _ _ _ _ _ _ Hread Hfresh Hfetch).
  pose proof (preserves_dispatch_not_200 env city cache resp H200 w2) as Hfs3.
  destruct (dispatch_permanent env city cache resp w2 H200 H429 H5xx)
    as (msg & cat & w' & Hd).
  rewrite Hd in Hfs3 |- *. simpl in Hfs3.
  exists msg, cat, w'. split; [done | congruence].
Qed.

Lemma permanent_errors_redirect_witness :
  exists msg cat w',
    resolve (demo_env (Some "secret") (always (answer 404 None None)))
      "Paris" stale_paris = (Ok (Redirect msg cat), w')
    /\ fs w' = fs stale_paris.
Proof.
  eapply (permanent_errors_redirect
            (demo_env (Some "secret") (always (answer 404 None None)))
            "Paris" stale_paris
            (Some (expired_doc 1600000000 demo_payload))
            (record (read_events
                       (demo_env (Some "secret")
                          (always (answer 404 None None))) "Paris")
               stale_paris)
            {| status_code := 404; retry_after := None; body := None |}).
  - vm_compute. reflexivity.
  - reflexivity.
  - vm_compute. reflexivity.
  - simpl. lia.
  - simpl. lia.
Defined.

(** X19.  One run of [resolve] touches no other file than the cache file of
    its city, and that file only when the run ends in the rendering of a
    payload just fetched, with source ["api"]: a run that ends in any other
    way - a cache hit, a fallback, a redirect or an exception - leaves
    every file as it was. *)
Theorem cache_changes_only_on_api_success env city w :
  (forall p, p <> cache_path env city ->
     fs (resolve env city w).2 !! p = fs w !! p)
  /\ (fs (resolve env city w).2 = fs w
      \/ exists payload,
           (resolve env city w).1
           = Ok (Render payload city "api"
                   (JNum (now (resolve env city w).2)) None)).
Proof.
  assert (Hcases :
    fs (resolve env city w).2 = fs w
    \/ exists payload,
         (resolve env city w).1
         = Ok (Render payload city "api"
                 (JNum (now (resolve env city w).2)) None)
         /\ fs (resolve env city w).2
            = <[cache_path env city
                := Doc (JObj (entry_doc (now (resolve env city w).2)
                                payload))]> (fs w)).
  { destruct (read_cache_world env city w) as (r & evs & Hread).
    unfold resolve, bind. rewrite Hread.
    destruct r as [cache|e]; [|by left].
    destruct (cache_is_fresh cache); [by left|].
    pose proof (preserves_fetch_weather_from_api env city (record evs w))
      as Hfs.
    destruct (fetch_weather_from_api env city (record evs w))
      as [[[resp|]|e] w2]; simpl in Hfs.
    - destruct (dispatch_fs env city cache resp w2)
        as [Hsame | (p & Hr & Hst)].
      + left. congruence.
      + right. exists p. split; [exact Hr|]. by rewrite Hst, Hfs.
    - left. by destruct (Py.truthy_cache cache).
    - by left. }
  destruct Hcases as [Hsame | (payload & Hr & Hst)].
  - split; [|by left]. intros p _. by rewrite Hsame.
  - split; [|right; by exists payload].
    intros p Hp. rewrite Hst. by apply lookup_insert_ne.
Qed.

(** X20.  Every rendering that [resolve] returns is for the city asked
    for, and its source is one of ["cache"], ["api"], ["cache_expired"]
    and ["cache_server_error"]. *)
Theorem resolve_render_sources env city w data c src ts warn w' :
  resolve env city w = (Ok (Render data c src ts warn), w') ->
  c = city
  /\ (src = "cache" \/ src = "api" \/ src = "cache_expired"
      \/ src = "cache_server_error").
Proof.
  destruct (read_cache_world env city w) as (r & evs & Hread).
  unfold resolve, bind. rewrite Hread.
  destruct r as [cache|e0]; [|intros [=]].
  destruct (cache_is_fresh cache);
    [simpl; intros [= <- <- <- <- <- <-]; auto|].
  destruct (fetch_weather_from_api env city (record evs w))
    as [[[resp|]|e] w2] eqn:Hfetch; [| |intros [=]].
  - intros Hd. apply dispatch_render_source in Hd as [-> Hsrc].
    split; [done|].
    destruct Hsrc as [-> | [-> | [_ H429]]]; auto.
    by apply fetch_weather_from_api_not_429 in Hfetch.
  - destruct (Py.truthy_cache cache); simpl;
      [intros [= <- <- <- <- <- <-]; auto | intros [=]].
Qed.

Lemma resolve_render_sources_witness :
  "Paris" = "Paris"
  /\ ("cache_server_error" = "cache" \/ "cache_server_error" = "api"
      \/ "cache_server_error" = "cache_expired"
      \/ "cache_server_error" = "cache_server_error").
Proof.
  apply (resolve_render_sources
           (demo_env (Some "secret") (always (answer 503 None None)))
           "Paris" stale_paris demo_payload "Paris" "cache_server_error"
           (JNum 1600000000) (Some msg_server_error_cached)
           (resolve (demo_env (Some "secret") (always (answer 503 None None)))
              "Paris" stale_paris).2).
  vm_compute. reflexivity.
Defined.



(** X22.  The handler only sees the stripped form field: a city name sent
    with white space around it is handled exactly as the bare name. *)
Theorem weather_strips_city env raw w :
  weather env (Some raw) w = weather env (Some (PyStr.strip raw)) w.
Proof.
  unfold weather.
  change (default "" (Some (PyStr.strip raw))) with (PyStr.strip raw).
  change (default "" (Some raw)) with raw.
  by rewrite strip_idem.
Qed.



(** X24.  When every attempt ends in a transport failure or a 429 and the
    city has no cache file - the look-up of its path going through -,
    [resolve] redirects with "Service is unreachable and no cached data is
    available." and creates no file. *)
Theorem exhausted_without_cache_redirects env city w :
  fs w !! cache_path env city = None ->
  stat_fails env (cache_path env city) = false ->
  PyStr.truthy (default "" (API_KEY (config env))) = true ->
  sleeps_accepted env ->
  (forall i, (i < Z.to_nat (MAX_RETRIES (config env)))%nat ->
     retryable (upstream env (requests_made w + i)%nat) = true) ->
  exists w',
    resolve env city w
    = (Ok (Redirect "Service is unreachable and no cached data is available."
             "danger"), w')
    /\ requests_made w'
       = (requests_made w + Z.to_nat (MAX_RETRIES (config env)))%nat
    /\ fs w' = fs w.
Proof.
  intros Hf Hstat Hkey Hs Hretry.
  pose proof (read_cache_absent env city w Hf Hstat) as Hread.
  destruct (fetch_weather_from_api_exhausts env city
              (record [EvSlugify city; EvExists (cache_path env city)] w)
              Hkey Hs Hretry)
    as (w2 & Hfetch & Hreq & Hfs).
  unfold resolve, bind. rewrite Hread. simpl. rewrite Hfetch. simpl.
  eexists. split; [reflexivity|]. split; [exact Hreq | exact Hfs].
Qed.

Lemma exhausted_without_cache_redirects_witness :
  exists w',
    resolve (demo_env (Some "secret") (always (answer 429 None None)))
      "Paris" empty_world
    = (Ok (Redirect "Service is unreachable and no cached data is available."
             "danger"), w')
    /\ requests_made w' = 3%nat
    /\ fs w' = fs empty_world.
Proof.
  apply (exhausted_without_cache_redirects
           (demo_env (Some "secret") (always (answer 429 None None)))
           "Paris" empty_world).
  - vm_compute. reflexivity.
  - vm_compute. reflexivity.
  - reflexivity.
  - split.
    + intros attempt Ha. by apply demo_backoff_accepted.
    + intros i r n Hup _ Hn. injection Hup as <-. vm_compute in Hn.
      discriminate Hn.
  - intros i _. reflexivity.
Defined.
